(** * gbb-crm: the request store, its reports and the two report renderers

    A shallow embedding of [models.py] and [report_exporters.py] and the
    properties the specification states about them, followed by further
    properties of the same code and of the views of [app.py] that sign a
    user in and pick the week of the weekly report.

    Conventions of the embedding.
    - A calendar date (a [datetime.date], or the 'YYYY-MM-DD' text the
      application writes into the DATE columns) is the proleptic Gregorian
      ordinal [date.toordinal()] of that day, an integer; adding
      [timedelta(days=k)] is adding [k].  The ordinals are not capped at
      [date.min] / [date.max].
    - A Python call either returns a value or raises; [result] records
      which, and [except] clauses are written out with [try_except].
    - The clock ([date.today()], [datetime.now()], CURRENT_TIMESTAMP) is an
      explicit argument.
    - The [requests] table is a list of rows in rowid order; the
      [request_logs] and [users] tables are lists of their own, passed to
      the functions that read or write them. *)

From Stdlib Require Import String Ascii ZArith QArith List Bool Lia.
From Stdlib Require Import Permutation Sorted.
Import ListNotations.
Open Scope string_scope.
Open Scope list_scope.
Open Scope Z_scope.

(* ================================================================= *)
(** ** Python outcomes *)

(** An exception is named by its class. *)
Definition exn := string.

Inductive result (A : Type) : Type :=
| Return (a : A)
| Raise (e : exn).
Arguments Return {A} a.
Arguments Raise {A} e.

Definition bind {A B : Type} (m : result A) (k : A -> result B) : result B :=
  match m with
  | Return a => k a
  | Raise e => Raise e
  end.

Declare Scope py_scope.
Delimit Scope py_scope with py.
Notation "x <- m ;; k" := (bind m (fun x => k))
  (at level 61, m at next level, right associativity) : py_scope.
Open Scope py_scope.

(** [try: body / except (classes): handler]. *)
Definition try_except {A : Type} (body : result A) (classes : list exn)
    (handler : result A) : result A :=
  match body with
  | Return a => Return a
  | Raise e => if existsb (String.eqb e) classes then handler else Raise e
  end.

(** [for x in xs: acc = body(acc, x)], stopping at the first exception. *)
Fixpoint for_each {A S : Type} (xs : list A) (body : S -> A -> result S)
    (acc : S) : result S :=
  match xs with
  | [] => Return acc
  | x :: xs' => acc' <- body acc x ;; for_each xs' body acc'
  end.

(* ================================================================= *)
(** ** Calendar ([datetime], [calendar]) *)

Definition date := Z.

Definition _is_leap (year : Z) : bool :=
  (year mod 4 =? 0) && (negb (year mod 100 =? 0) || (year mod 400 =? 0)).

Definition _days_before_year (year : Z) : Z :=
  let y := year - 1 in y * 365 + y / 4 - y / 100 + y / 400.

Definition _DAYS_IN_MONTH : list Z :=
  [-1; 31; 28; 31; 30; 31; 30; 31; 31; 30; 31; 30; 31].

Definition _days_in_month (year month : Z) : Z :=
  if (month =? 2) && _is_leap year then 29
  else nth (Z.to_nat month) _DAYS_IN_MONTH 0.

Definition _DAYS_BEFORE_MONTH : list Z :=
  [-1; 0; 31; 59; 90; 120; 151; 181; 212; 243; 273; 304; 334].

Definition _days_before_month (year month : Z) : Z :=
  nth (Z.to_nat month) _DAYS_BEFORE_MONTH 0
  + (if (2 <? month) && _is_leap year then 1 else 0).

(** [date(year, month, day).toordinal()]. *)
Definition _ymd2ord (year month day : Z) : date :=
  _days_before_year year + _days_before_month year month + day.

(** [d.weekday()]: Monday is 0, Sunday is 6. *)
Definition weekday (d : date) : Z := (d + 6) mod 7.

(** [calendar.monthrange(year, month)[1]], which rejects a month outside
    1..12. *)
Definition monthrange_last_day (year month : Z) : result Z :=
  if (1 <=? month) && (month <=? 12) then Return (_days_in_month year month)
  else Raise "IllegalMonthError".

(* ================================================================= *)
(** ** [models.calculate_working_days] *)

(** The [while current_date <= end] loop.  [fuel] bounds the number of
    iterations; [calculate_working_days] supplies one unit per day of the
    range, which the loop never exhausts (see [walk_days_enough]). *)
Fixpoint walk_days (fuel : nat) (current_date end_ : date) (working_days : Z) : Z :=
  match fuel with
  | O => working_days
  | S fuel' =>
      if current_date <=? end_ then
        let working_days' :=
          if weekday current_date <? 5 then working_days + 1 else working_days in
        walk_days fuel' (current_date + 1) end_ working_days'
      else working_days
  end.

(** [calculate_working_days(start_date, end_date=None)]; [today] is
    [date.today()]. *)
Definition calculate_working_days (start_date : date) (end_date : option date)
    (today : date) : result Z :=
  let end_ := match end_date with None => today | Some e => e end in
  let start := start_date in
  if start =? end_ then Return 1
  else
    let working_days := 0 in
    let current_date := start + 1 in
    let working_days := walk_days (Z.to_nat (end_ - start)) current_date end_ working_days in
    Return (working_days + 1).

(** The days counted by the specification: every calendar day strictly
    after [start] through [end_], kept when it is Monday to Friday. *)
Definition days_after (start end_ : date) : list date :=
  map (fun k => start + 1 + Z.of_nat k) (seq 0 (Z.to_nat (end_ - start))).

Definition is_working_day (d : date) : bool := weekday d <? 5.

Definition working_days_in (start end_ : date) : Z :=
  Z.of_nat (length (filter is_working_day (days_after start end_))).

(* ================================================================= *)
(** ** Python strings and integers *)

Definition chars (s : string) : list ascii := list_ascii_of_string s.

(** [c.isspace()] on the ASCII range. *)
Definition is_space (c : ascii) : bool :=
  let n := nat_of_ascii c in
  ((9 <=? n) && (n <=? 13) || (28 <=? n) && (n <=? 31) || (n =? 32))%nat.

Definition is_digit (c : ascii) : bool :=
  let n := nat_of_ascii c in ((48 <=? n) && (n <=? 57))%nat.

Definition digit_value (c : ascii) : Z := Z.of_nat (nat_of_ascii c) - 48.

Fixpoint lstrip (cs : list ascii) : list ascii :=
  match cs with
  | c :: cs' => if is_space c then lstrip cs' else cs
  | [] => []
  end.

(** [s.strip()]. *)
Definition strip (cs : list ascii) : list ascii :=
  rev (lstrip (rev (lstrip cs))).

(** The digits of an integer literal: at least one digit, single
    underscores allowed between digits.  [need_digit] holds at the start and
    right after an underscore. *)
Fixpoint parse_digits (cs : list ascii) (acc : Z) (need_digit : bool) : option Z :=
  match cs with
  | [] => if need_digit then None else Some acc
  | c :: cs' =>
      if is_digit c then parse_digits cs' (10 * acc + digit_value c) false
      else if Ascii.eqb c "_" && negb need_digit then parse_digits cs' acc true
      else None
  end.

(** [int(s)] for a [str] in base 10 (ASCII digits and whitespace). *)
Definition py_int (s : string) : result Z :=
  let body sign cs :=
    match parse_digits cs 0 true with
    | Some n => Return (sign * n)
    | None => Raise "ValueError"
    end in
  match strip (chars s) with
  | "+"%char :: cs => body 1 cs
  | "-"%char :: cs => body (-1) cs
  | cs => body 1 cs
  end.

(** [s.split(sep)] for a one-character separator. *)
Fixpoint split (sep : ascii) (s : string) : list string :=
  match s with
  | EmptyString => [""]
  | String c s' =>
      if Ascii.eqb c sep then "" :: split sep s'
      else match split sep s' with
           | h :: t => String c h :: t
           | [] => [String c ""]
           end
  end.

(** [xs[-1]]. *)
Definition last_item {A : Type} (xs : list A) : result A :=
  match rev xs with
  | x :: _ => Return x
  | [] => Raise "IndexError"
  end.

(** [str(n)] for a natural number, least significant digit last; [fuel]
    bounds the number of digits. *)
Fixpoint nat_digits (fuel : nat) (n : Z) (acc : string) : string :=
  match fuel with
  | O => acc
  | S fuel' =>
      let acc' := String (ascii_of_nat (Z.to_nat (48 + n mod 10))) acc in
      if n <? 10 then acc' else nat_digits fuel' (n / 10) acc'
  end.

Definition str_of_nat (n : Z) : string :=
  nat_digits (S (Z.to_nat (Z.log2 n))) n "".

Fixpoint zeros (k : nat) : string :=
  match k with O => "" | S k' => String "0" (zeros k') end.

(** [f"{n:03d}"]: the sign, then zeros up to a total width of 3, then the
    digits. *)
Definition format_03d (n : Z) : string :=
  let sign := if n <? 0 then "-" else "" in
  let digits := str_of_nat (Z.abs n) in
  let pad := (3 - String.length sign - String.length digits)%nat in
  (sign ++ zeros pad ++ digits)%string.

(* ================================================================= *)
(** ** SQLite values and operators *)

(** What an INTEGER column can hold: NULL, an integer, or text that does not
    look like a number (SQLite keeps such text as it is). *)
Inductive sqlval : Type :=
| SqlNull
| SqlInt (n : Z)
| SqlText (s : string).

(** [bool(v)] for the Python value of a cell. *)
Definition truthy (v : sqlval) : bool :=
  match v with
  | SqlNull => false
  | SqlInt n => negb (n =? 0)
  | SqlText s => negb (String.eqb s "")
  end.

Definition is_not_null (v : sqlval) : bool :=
  match v with SqlNull => false | _ => true end.

(** [d > v] in a WHERE clause, [d] an integer: NULL compares as unknown, and
    every integer sorts before every text. *)
Definition sql_int_gt (d : Z) (v : sqlval) : bool :=
  match v with
  | SqlNull => false
  | SqlInt n => n <? d
  | SqlText _ => false
  end.

(** ASCII case folding of LIKE. *)
Definition upper (c : ascii) : ascii :=
  let n := nat_of_ascii c in
  if ((97 <=? n) && (n <=? 122))%nat then ascii_of_nat (n - 32) else c.

(** [s LIKE p]: [%] matches any run of characters, [_] any one character,
    anything else itself up to ASCII case. *)
Fixpoint like_chars (p : list ascii) (s : list ascii) {struct p} : bool :=
  match p with
  | [] => match s with [] => true | _ => false end
  | c :: p' =>
      if Ascii.eqb c "%" then
        (fix any (s : list ascii) : bool :=
           like_chars p' s || match s with [] => false | _ :: s' => any s' end) s
      else match s with
           | [] => false
           | d :: s' =>
               (Ascii.eqb c "_" || Ascii.eqb (upper c) (upper d)) && like_chars p' s'
           end
  end.

Definition like (s pattern : string) : bool := like_chars (chars pattern) (chars s).

(** Stable insertion sort: [le x y] says that [x] may stand before [y].
    Python's [list.sort(key=...)] is stable, so its result is this one; for
    ORDER BY, whose order among equal keys SQLite leaves open, the rowid
    order is kept. *)
Fixpoint insert_sorted {A : Type} (le : A -> A -> bool) (x : A) (l : list A) : list A :=
  match l with
  | [] => [x]
  | y :: l' => if le x y then x :: l else y :: insert_sorted le x l'
  end.

Fixpoint sort_by {A : Type} (le : A -> A -> bool) (l : list A) : list A :=
  match l with
  | [] => []
  | x :: l' => insert_sorted le x (sort_by le l')
  end.

(** [cursor.fetchone()]. *)
Definition fetchone {A : Type} (rows : list A) : option A := hd_error rows.

(* ================================================================= *)
(** ** [models.py]: identifiers *)

Definition service_slugs : list (string * string) :=
  [ ("Internet Service", "IS");
    ("Lease line", "LL");
    ("Dark Fibre", "DF");
    ("Network Monitoring", "NM");
    ("Others - Connectivity (Renewal, Upgrade, IT Device, IP Addresses, Consultation, Support etc)", "OC");
    ("Collocation", "CS");
    ("Cross Connection", "CC");
    ("Collocation & Cross-connect Renewal", "CR");
    ("ECS", "EC");
    ("Disaster Recovery", "DR");
    ("Backup Service", "BS");
    ("Object Storage", "OS");
    ("Email Service", "ES");
    ("Others - Cloud (Renewal, Upgrade of Cloud Resources, IP Address, Licenses etc)", "OR");
    ("Document Management System - EDMS", "DM");
    ("Capacity Building - Training", "CB");
    ("Network Security", "NS");
    ("Security Renewal", "SR") ].

(** [d.get(key, default)] on a dict written as its list of items. *)
Fixpoint dict_get {V : Type} (d : list (string * V)) (key : string) (default : V) : V :=
  match d with
  | [] => default
  | (k, v) :: d' => if String.eqb k key then v else dict_get d' key default
  end.

Definition get_service_slug (service_type : string) : string :=
  dict_get service_slugs service_type "OT".

(* ================================================================= *)
(** ** [models.py]: the [requests] table *)

(** A TIMESTAMP cell, in seconds counted from the start of day 0, so that
    [DATE(t)] is the ordinal of its day. *)
Definition timestamp := Z.
Definition DATE (t : timestamp) : date := t / 86400.

Record request : Type := mkRequest {
  id : Z;
  custom_id : option string;
  customer_name : string;
  description : string;
  project_type : string;
  service_type : string;
  status : string;
  boq_cost : option Q;
  requester_name : option string;
  department : option string;
  date_request_received : date;
  target_days : sqlval;
  sent_out_date : option date;
  duration_days : Z;
  team_member_involved : string;
  comment : option string;
  created_date : timestamp;
  updated_date : timestamp
}.

Definition store := list request.

Definition set_duration_days (r : request) (d : Z) : request :=
  mkRequest (id r) (custom_id r) (customer_name r) (description r) (project_type r)
    (service_type r) (status r) (boq_cost r) (requester_name r) (department r)
    (date_request_received r) (target_days r) (sent_out_date r) d
    (team_member_involved r) (comment r) (created_date r) (updated_date r).

Definition is_closed (r : request) : bool := String.eqb (status r) "Closed Request".

(** [SELECT custom_id FROM requests WHERE custom_id LIKE ? ORDER BY custom_id
    DESC LIMIT 1]: a NULL id matches no pattern; text sorts bytewise. *)
Definition last_custom_id (db : store) (pattern : string) : option string :=
  let ids := flat_map (fun r => match custom_id r with
                                | Some c => if like c pattern then [c] else []
                                | None => []
                                end) db in
  fetchone (sort_by (fun a b => String.leb b a) ids).

(** [generate_custom_id(service_type)]; [mmyy] is [now.strftime('%m%y')]. *)
Definition generate_custom_id (db : store) (service_type : string) (mmyy : string)
    : result string :=
  let service_slug := get_service_slug service_type in
  let prefix := ("GBB_SDA_" ++ mmyy ++ "_" ++ service_slug ++ "_")%string in
  next_number <-
    match last_custom_id db (prefix ++ "%")%string with
    | Some last_id =>
        try_except
          (parts <- Return (split "_" last_id) ;;
           tail <- last_item parts ;;
           last_number <- py_int tail ;;
           Return (last_number + 1))
          ["ValueError"; "IndexError"]
          (Return 1)
    | None => Return 1
    end ;;
  Return (prefix ++ format_03d next_number)%string.

(** The [data] dict of [Request.create]; the four keys read with
    [data[...]] are always there, the others may be missing. *)
Record create_data : Type := mkCreateData {
  c_customer_name : string;
  c_description : string;
  c_project_type : option string;
  c_service_type : option string;
  c_boq_cost : option Q;
  c_requester_name : option string;
  c_department : option string;
  c_date_request_received : date;
  c_target_days : sqlval;
  c_team_member_involved : string;
  c_comment : option string
}.

Definition get_or {A : Type} (o : option A) (default : A) : A :=
  match o with Some a => a | None => default end.

(** The rowid AUTOINCREMENT hands out: one more than the largest rowid in
    use (the rowids of deleted rows, which it also skips, are not kept). *)
Definition next_rowid (db : store) : Z :=
  1 + fold_right (fun r m => Z.max (id r) m) 0 db.

Definition custom_id_taken (db : store) (c : string) : bool :=
  existsb (fun r => match custom_id r with
                    | Some c' => String.eqb c' c
                    | None => false
                    end) db.

(** [Request.create(data)]: returns the new rowid and the table after the
    INSERT.  The UNIQUE constraint on [custom_id] rejects a duplicate. *)
Definition create (db : store) (data : create_data) (mmyy : string)
    (today : date) (now : timestamp) : result (Z * store) :=
  let service_type := get_or (c_service_type data) "Internet Service" in
  custom_id <- generate_custom_id db service_type mmyy ;;
  duration <- calculate_working_days (c_date_request_received data) None today ;;
  if custom_id_taken db custom_id then Raise "IntegrityError"
  else
    let request_id := next_rowid db in
    Return (request_id,
            db ++ [ mkRequest request_id (Some custom_id)
                      (c_customer_name data) (c_description data)
                      (get_or (c_project_type data) "") service_type
                      "in_progress" (c_boq_cost data) (c_requester_name data)
                      (c_department data) (c_date_request_received data)
                      (c_target_days data) None duration
                      (c_team_member_involved data)
                      (Some (get_or (c_comment data) "")) now now ]).

Definition get_status_sort_order (status : string) : Z :=
  dict_get
    [ ("Closed Request", 1);
      ("Pending with Presales", 2);
      ("Pending review", 3);
      ("Pending approval", 4);
      ("in_progress", 5) ] status 999.

(** [Request.get_all(date_from, date_to, overdue_only)]: a bound that is
    [None] (or empty) adds no condition. *)
Definition get_all (db : store) (date_from date_to : option date)
    (overdue_only : bool) (today : date) : result (list request) :=
  let selected :=
    filter (fun r =>
      match date_from with Some a => a <=? date_request_received r | None => true end
      && match date_to with Some b => date_request_received r <=? b | None => true end
      && (if overdue_only
          then is_not_null (target_days r)
               && sql_int_gt (duration_days r) (target_days r)
               && negb (is_closed r)
          else true)) db in
  let rows := sort_by (fun a b => created_date b <=? created_date a) selected in
  for_each rows
    (fun requests row =>
       request_dict <-
         (if negb (is_closed row) then
            new_duration <- calculate_working_days (date_request_received row) None today ;;
            Return (set_duration_days row new_duration)
          else Return row) ;;
       Return (requests ++ [request_dict]))
    [].

(** [Request.get_by_id(request_id)]: the stored row, as it is. *)
Definition get_by_id (db : store) (request_id : Z) : option request :=
  fetchone (filter (fun r => id r =? request_id) db).

(** The [data] dict of [Request.update]: a column is [Some v] when its key
    is in the dict.  [u_sent_out_date = Some None] is the key present with
    [None]. *)
Record update_data : Type := mkUpdateData {
  u_custom_id : option (option string);
  u_customer_name : option string;
  u_description : option string;
  u_project_type : option string;
  u_service_type : option string;
  u_status : option string;
  u_boq_cost : option (option Q);
  u_requester_name : option (option string);
  u_department : option (option string);
  u_date_request_received : option date;
  u_target_days : option sqlval;
  u_sent_out_date : option (option date);
  u_duration_days : option Z;
  u_team_member_involved : option string;
  u_comment : option (option string)
}.

Definition with_sent_out_date (data : update_data) (v : option date) : update_data :=
  mkUpdateData (u_custom_id data) (u_customer_name data) (u_description data)
    (u_project_type data) (u_service_type data) (u_status data) (u_boq_cost data)
    (u_requester_name data) (u_department data) (u_date_request_received data)
    (u_target_days data) (Some v) (u_duration_days data)
    (u_team_member_involved data) (u_comment data).

Definition with_duration_days (data : update_data) (v : Z) : update_data :=
  mkUpdateData (u_custom_id data) (u_customer_name data) (u_description data)
    (u_project_type data) (u_service_type data) (u_status data) (u_boq_cost data)
    (u_requester_name data) (u_department data) (u_date_request_received data)
    (u_target_days data) (u_sent_out_date data) (Some v)
    (u_team_member_involved data) (u_comment data).

(** [data.get('status') == 'Closed Request']. *)
Definition sets_closed (data : update_data) : bool :=
  match u_status data with
  | Some s => String.eqb s "Closed Request"
  | None => false
  end.

(** [data.get('sent_out_date')]: [None] when the key is missing. *)
Definition get_sent_out_date (data : update_data) : option date :=
  match u_sent_out_date data with Some v => v | None => None end.

(** [UPDATE requests SET k = v, ..., updated_date = CURRENT_TIMESTAMP] on
    one row: the columns named in [data] change, the others stay. *)
Definition apply_update (data : update_data) (now : timestamp) (r : request) : request :=
  mkRequest (id r)
    (get_or (u_custom_id data) (custom_id r))
    (get_or (u_customer_name data) (customer_name r))
    (get_or (u_description data) (description r))
    (get_or (u_project_type data) (project_type r))
    (get_or (u_service_type data) (service_type r))
    (get_or (u_status data) (status r))
    (get_or (u_boq_cost data) (boq_cost r))
    (get_or (u_requester_name data) (requester_name r))
    (get_or (u_department data) (department r))
    (get_or (u_date_request_received data) (date_request_received r))
    (get_or (u_target_days data) (target_days r))
    (get_or (u_sent_out_date data) (sent_out_date r))
    (get_or (u_duration_days data) (duration_days r))
    (get_or (u_team_member_involved data) (team_member_involved r))
    (get_or (u_comment data) (comment r))
    (created_date r) now.

(** No key at all: the statement built from [data] is then
    [UPDATE requests SET , updated_date = ...], which SQLite rejects. *)
Definition no_fields (data : update_data) : bool :=
  match data with
  | mkUpdateData None None None None None None None None None None None None None
      None None => true
  | _ => false
  end.

(** [Request.update(request_id, data, ...)]: the success flag and the table
    after the UPDATE. *)
Definition update (db : store) (request_id : Z) (data : update_data)
    (today : date) (now : timestamp) : result (bool * store) :=
  match get_by_id db request_id with
  | None => Return (false, db)
  | Some current_request =>
      (* Auto-set sent_out_date if status is Closed Request *)
      let data :=
        if sets_closed data then
          match get_sent_out_date data with
          | None => with_sent_out_date data (Some today)
          | Some _ => data
          end
        else data in
      (* Calculate updated duration *)
      data <-
        match u_date_request_received data with
        | Some received =>
            let end_date := if sets_closed data then get_sent_out_date data else None in
            duration <- calculate_working_days received end_date today ;;
            Return (with_duration_days data duration)
        | None => Return data
        end ;;
      if no_fields data then Raise "OperationalError"
      else
        let db' :=
          map (fun r => if id r =? request_id then apply_update data now r else r) db in
        let rowcount := length (filter (fun r => id r =? request_id) db) in
        let success := (0 <? rowcount)%nat in
        Return (success, db')
  end.

Definition count {A : Type} (f : A -> bool) (l : list A) : Z :=
  Z.of_nat (length (filter f l)).

Record stats : Type := mkStats {
  st_total : Z;
  st_in_progress : Z;
  st_pending : Z;
  st_closed : Z;
  st_overdue : Z;
  st_closed_week : Z
}.

(** The body of the [try] in [get_stats]: whether the row adds one to
    [overdue]. *)
Definition exceeds_target (target_days : sqlval) (current_duration : Z) : result bool :=
  target_days_int <-
    match target_days with
    | SqlText s => py_int s
    | SqlInt n => Return n
    | SqlNull => Raise "TypeError"
    end ;;
  Return ((0 <? target_days_int) && (target_days_int <? current_duration)).

(** One turn of the loop of [get_stats] over the rows with a target. *)
Definition stats_step (today : date) (overdue : Z) (row : request) : result Z :=
  let current_duration := Return (duration_days row) in
  current_duration <-
    (if negb (is_closed row)
     then calculate_working_days (date_request_received row) None today
     else current_duration) ;;
  let target_days := target_days row in
  if truthy target_days then
    try_except
      (hit <- exceeds_target target_days current_duration ;;
       Return (if hit then overdue + 1 else overdue))
      ["ValueError"; "TypeError"]
      (Return overdue)
  else Return overdue.

(** [Request.get_stats()]. *)
Definition get_stats (db : store) (today : date) : result stats :=
  let total := Z.of_nat (length db) in
  let status_counts s := count (fun r => String.eqb (status r) s) db in
  overdue <-
    for_each (filter (fun r => is_not_null (target_days r)) db) (stats_step today) 0 ;;
  let closed_week :=
    count (fun r => is_closed r
                    && match sent_out_date r with
                       | Some d => today - 7 <=? d
                       | None => false
                       end) db in
  Return (mkStats total
            (status_counts "in_progress")
            (status_counts "Pending with Presales" + status_counts "Pending review"
             + status_counts "Pending approval")
            (status_counts "Closed Request")
            overdue closed_week).

(* ================================================================= *)
(** ** [models.py]: the reports *)

(** The part of a report dict the renderers' tables and the properties read;
    the activity list and the weekly and monthly breakdowns are left out. *)
Record report : Type := mkReport {
  rp_created : Z;
  rp_completed : Z;
  rp_in_progress : Z;
  rp_overdue : Z;
  rp_requests : list request
}.

(** [DATE(sent_out_date) BETWEEN ? AND ?]; a NULL date is in no period. *)
Definition sent_out_between (first last : date) (r : request) : bool :=
  match sent_out_date r with
  | Some d => (first <=? d) && (d <=? last)
  | None => false
  end.

(** The queries the three reports share, for a period [first .. last]. *)
Definition period_report (db : store) (first last : date) : report :=
  let created :=
    count (fun r => (first <=? DATE (created_date r)) && (DATE (created_date r) <=? last)) db in
  let completed := count (fun r => sent_out_between first last r && is_closed r) db in
  let in_progress := count (fun r => String.eqb (status r) "in_progress") db in
  let overdue :=
    count (fun r => is_not_null (target_days r)
                    && sql_int_gt (duration_days r) (target_days r)) db in
  let requests := filter (fun r => negb (is_closed r) || sent_out_between first last r) db in
  let requests :=
    sort_by (fun x y => get_status_sort_order (status x) <=? get_status_sort_order (status y))
      requests in
  mkReport created completed in_progress overdue requests.

(** [Request.get_daily_report(target_date)]: [... = ?] is the period of one
    day. *)
Definition get_daily_report (db : store) (target_date : date) : result report :=
  Return (period_report db target_date target_date).

(** [Request.get_weekly_report(year, week)]. *)
Definition get_weekly_report (db : store) (year week : Z) : result report :=
  let jan_1 := _ymd2ord year 1 1 in
  let week_start := jan_1 + 7 * (week - 1) - weekday jan_1 in
  let week_end := week_start + 6 in
  Return (period_report db week_start week_end).

(** [Request.get_monthly_report(year, month)]. *)
Definition get_monthly_report (db : store) (year month : Z) : result report :=
  let start_date := _ymd2ord year month 1 in
  last_day <- monthrange_last_day year month ;;
  let end_date := _ymd2ord year month last_day in
  Return (period_report db start_date end_date).

(* ================================================================= *)
(** ** [report_exporters.py] *)

(** [reportlab.lib.colors.Color(red, green, blue)]; the source writes each
    channel as a quotient [n/255], kept here as the rational it denotes. *)
Record rl_color : Type := Color { red : Q; green : Q; blue : Q }.

Definition colors_white : rl_color := Color 1 1 1.

(** One entry of [colors_map]: the same colour in three notations. *)
Record color_entry : Type := mkColorEntry {
  ce_hex : string;
  ce_rgb : Z * Z * Z;
  ce_reportlab : rl_color
}.

Inductive color_value : Type :=
| Hex (s : string)
| Rgb (c : Z * Z * Z)
| Reportlab (c : rl_color).

Definition colors_map : list (string * color_entry) :=
  [ ("in_progress",
      mkColorEntry "#FEF3C7" (254, 243, 199) (Color (254 # 255) (243 # 255) (199 # 255)));
    ("Pending with Presales",
      mkColorEntry "#E5E7EB" (229, 231, 235) (Color (229 # 255) (231 # 255) (235 # 255)));
    ("Pending review",
      mkColorEntry "#E9D5FF" (233, 213, 255) (Color (233 # 255) (213 # 255) (255 # 255)));
    ("Pending approval",
      mkColorEntry "#FED7AA" (254, 215, 170) (Color (254 # 255) (215 # 255) (170 # 255)));
    ("Closed Request",
      mkColorEntry "#DCFCE7" (220, 252, 231) (Color (220 # 255) (252 # 255) (231 # 255))) ].

Definition default_color : color_entry :=
  mkColorEntry "#FFFFFF" (255, 255, 255) colors_white.

(** [entry.get(format_type)], [None] for a key the entry does not have. *)
Definition entry_get (e : color_entry) (format_type : string) : option color_value :=
  if String.eqb format_type "hex" then Some (Hex (ce_hex e))
  else if String.eqb format_type "rgb" then Some (Rgb (ce_rgb e))
  else if String.eqb format_type "reportlab" then Some (Reportlab (ce_reportlab e))
  else None.

(** [ReportExporter.get_status_color(status, format_type)]; the default
    [default_color[format_type]] is evaluated first and raises on an unknown
    format. *)
Definition get_status_color (status format_type : string) : result color_value :=
  match entry_get default_color format_type with
  | None => Raise "KeyError"
  | Some fallback =>
      Return (get_or (entry_get (dict_get colors_map status default_color) format_type)
                fallback)
  end.










(* ================================================================= *)
(** * Vocabulary of the specification *)

(* ----------------------------------------------------------------- *)
(** ** Working days *)

(** The working-day count in closed form: the start day, plus the working
    days after it up to the end when the end comes later. *)
Definition elapsed_working_days (start end_ : date) : Z :=
  if start <? end_ then 1 + working_days_in start end_ else 1.

(* ----------------------------------------------------------------- *)
(** ** Reads of the table *)





(* ----------------------------------------------------------------- *)
(** ** Dashboard statistics *)

(** The integer a target cell stands for, if any: an integer cell, or text
    that [int] accepts. *)
Definition numeric_target (v : sqlval) : option Z :=
  match v with
  | SqlInt n => Some n
  | SqlText s => match py_int s with Return n => Some n | Raise _ => None end
  | SqlNull => None
  end.

(** The duration [get_stats] compares: live for a row that is not closed,
    the stored (frozen) one for a closed row. *)
Definition current_duration (today : date) (r : request) : Z :=
  if is_closed r then duration_days r
  else elapsed_working_days (date_request_received r) today.

(** The row is counted by the overdue figure of [get_stats]. *)
Definition counted_overdue (today : date) (r : request) : bool :=
  match numeric_target (target_days r) with
  | Some n => (0 <? n) && (n <? current_duration today r)
  | None => false
  end.

(* ----------------------------------------------------------------- *)
(** ** Reports *)




(** The first and last day of the week that [get_weekly_report] covers. *)
Definition week_start (year week : Z) : date :=
  _ymd2ord year 1 1 + 7 * (week - 1) - weekday (_ymd2ord year 1 1).
Definition week_end (year week : Z) : date := week_start year week + 6.

(* ----------------------------------------------------------------- *)
(** ** Renderers *)

(** The shared status colour table of the specification, as six hex digits:
    five fixed colours and white for any other status. *)
Definition status_hex (status : string) : string :=
  if String.eqb status "in_progress" then "FEF3C7"
  else if String.eqb status "Pending with Presales" then "E5E7EB"
  else if String.eqb status "Pending review" then "E9D5FF"
  else if String.eqb status "Pending approval" then "FED7AA"
  else if String.eqb status "Closed Request" then "DCFCE7"
  else "FFFFFF".

Definition hex_digit (c : ascii) : option Z :=
  let n := Z.of_nat (nat_of_ascii c) in
  if (48 <=? n) && (n <=? 57) then Some (n - 48)
  else if (65 <=? n) && (n <=? 70) then Some (n - 55)
  else if (97 <=? n) && (n <=? 102) then Some (n - 87)
  else None.

Definition hex_byte (hi lo : ascii) : option Z :=
  match hex_digit hi, hex_digit lo with
  | Some h, Some l => Some (16 * h + l)
  | _, _ => None
  end.

(** The channels of an 'RRGGBB' colour. *)
Definition hex_rgb (h : string) : option (Z * Z * Z) :=
  match chars h with
  | [r1; r0; g1; g0; b1; b0] =>
      match hex_byte r1 r0, hex_byte g1 g0, hex_byte b1 b0 with
      | Some r, Some g, Some b => Some (r, g, b)
      | _, _, _ => None
      end
  | _ => None
  end.

(** A reportlab colour and an 'RRGGBB' fill are the same colour. *)
Definition same_colour (c : rl_color) (h : string) : Prop :=
  exists r g b : Z,
    hex_rgb h = Some (r, g, b)
    /\ (red c == inject_Z r / 255)%Q
    /\ (green c == inject_Z g / 255)%Q
    /\ (blue c == inject_Z b / 255)%Q.











(* ----------------------------------------------------------------- *)
(** ** Identifiers *)

(** The prefix of the ids of one bucket: month, year and service slug. *)
Definition id_prefix (service_type mmyy : string) : string :=
  ("GBB_SDA_" ++ mmyy ++ "_" ++ get_service_slug service_type ++ "_")%string.

(** [c] is the custom id of a stored row and matches the bucket's pattern
    [prefix%] under LIKE. *)
Definition bucket_id (db : store) (service_type mmyy c : string) : Prop :=
  (exists r, In r db /\ custom_id r = Some c)
  /\ like c (id_prefix service_type mmyy ++ "%")%string = true.

(** [s.split('_')[-1]]: the text after the last underscore. *)
Definition final_component (s : string) : string := last (split "_" s) "".

(** Successive [Request.create] calls, each with its own data and clock
    reading. *)
Fixpoint create_many (db : store) (calls : list (create_data * date * timestamp))
    (mmyy : string) : result store :=
  match calls with
  | [] => Return db
  | (data, today, now) :: calls' =>
      created <- create db data mmyy today now ;;
      create_many (snd created) calls' mmyy
  end.

(** The service type a create call files the request under. *)
Definition call_service_type (call : create_data * date * timestamp) : string :=
  get_or (c_service_type (fst (fst call))) "Internet Service".

(** The ids of a bucket numbered 1 to [n], and their suffixes. *)
Definition bucket_sequence (service_type mmyy : string) (n : nat) : list string :=
  map (fun j => (id_prefix service_type mmyy ++ format_03d (Z.of_nat j))%string)
      (seq 1 n).

Definition suffixes (n : nat) : list string :=
  map (fun j => format_03d (Z.of_nat j)) (seq 1 n).

(** A sequence number formats as three decimal digits that read back as
    the number. *)
Definition suffix_ok (k : Z) : bool :=
  match py_int (format_03d k) with Return n => n =? k | Raise _ => false end
  && (String.length (format_03d k) =? 3)%nat
  && forallb is_digit (chars (format_03d k))
  && String.eqb (final_component (format_03d k)) (format_03d k).

(** The suffix of a sequence number sorts strictly before the next one. *)
Definition suffix_lt_next (k : Z) : bool :=
  String.ltb (format_03d k) (format_03d (k + 1)).

(* ----------------------------------------------------------------- *)
(** ** Sample data *)

Definition sample_request (rid : Z) (cid : option string) (st : string)
    (received : date) (target : sqlval) (sent : option date) (duration : Z)
    (created : timestamp) : request :=
  mkRequest rid cid "Acme" "Fibre link" "" "Internet Service" st None None None
    received target sent duration "Ada" None created created.

Definition status_only (st : string) : update_data :=
  mkUpdateData None None None None None (Some st) None None None None None None
    None None None.


Definition sample_create (service_type : string) : create_data * date * timestamp :=
  (mkCreateData "Acme" "Rack space" None (Some service_type) None None None
     (_ymd2ord 2025 3 3) SqlNull "Ada" None,
   _ymd2ord 2025 3 3, 0).


(* ================================================================= *)
(** * More of [models.py] and [report_exporters.py] *)

(* ----------------------------------------------------------------- *)
(** ** [Request.delete] and [migrate_status_values] *)

(** [Request.delete(request_id)]: the success flag and the table after the
    DELETE.  The connection never turns foreign keys on, so the statement
    does not look at the logs that refer to the row, and they stay. *)
Definition delete (db : store) (request_id : Z) : result (bool * store) :=
  let rowcount := length (filter (fun r => id r =? request_id) db) in
  let success := (0 <? rowcount)%nat in
  Return (success, filter (fun r => negb (id r =? request_id)) db).

Definition set_status (r : request) (s : string) : request :=
  mkRequest (id r) (custom_id r) (customer_name r) (description r) (project_type r)
    (service_type r) s (boq_cost r) (requester_name r) (department r)
    (date_request_received r) (target_days r) (sent_out_date r) (duration_days r)
    (team_member_involved r) (comment r) (created_date r) (updated_date r).

(** [UPDATE requests SET status = ? WHERE status = ?]: the table after the
    statement and its [rowcount]. *)
Definition update_status (db : store) (new_status old_status : string) : store * Z :=
  (map (fun r => if String.eqb (status r) old_status then set_status r new_status else r) db,
   count (fun r => String.eqb (status r) old_status) db).

Definition status_updates : list (string * string) :=
  [ ("Pending with jane", "Pending review");
    ("Pending Review with mahmud", "Pending approval") ].

(** [migrate_status_values()]: the number of rows updated and the table
    after the commit (the progress messages it prints are left out). *)
Definition migrate_status_values (db : store) : result (Z * store) :=
  for_each status_updates
    (fun '(total_updated, db) '(old_status, new_status) =>
       let '(db', updated_count) := update_status db new_status old_status in
       Return (total_updated + updated_count, db'))
    (0, db).

(** [Request.SERVICE_TYPES], the service types the application offers. *)
Definition SERVICE_TYPES : list string :=
  [ "Internet Service";
    "Lease line";
    "Dark Fibre";
    "Network Monitoring";
    "Others - Connectivity (Renewal, Upgrade, IT Device, IP Addresses, Consultation, Support etc)";
    "Collocation";
    "Cross Connection";
    "Collocation & Cross-connect Renewal";
    "ECS";
    "Disaster Recovery";
    "Backup Service";
    "Object Storage";
    "Email Service";
    "Others - Cloud (Renewal, Upgrade of Cloud Resources, IP Address, Licenses etc)";
    "Document Management System - EDMS";
    "Capacity Building - Training";
    "Network Security";
    "Security Renewal" ].

(* ----------------------------------------------------------------- *)
(** ** [RequestLog] and the activity lists of the reports *)

Record request_log : Type := mkLog {
  log_id : Z;
  log_request_id : Z;
  log_user_id : Z;
  log_user_name : string;
  log_action : string;
  log_field_name : option string;
  log_old_value : option string;
  log_new_value : option string;
  log_timestamp : timestamp
}.

Definition log_store := list request_log.

Definition next_log_id (logs : log_store) : Z :=
  1 + fold_right (fun l m => Z.max (log_id l) m) 0 logs.

(** [RequestLog.create_log(...)]: the table after the INSERT; [now] is
    CURRENT_TIMESTAMP. *)
Definition create_log (logs : log_store) (request_id user_id : Z)
    (user_name action : string) (field_name old_value new_value : option string)
    (now : timestamp) : result log_store :=
  Return (logs ++ [mkLog (next_log_id logs) request_id user_id user_name action
                     field_name old_value new_value now]).

(** [RequestLog.get_logs_for_request(request_id)]. *)
Definition get_logs_for_request (logs : log_store) (request_id : Z)
    : result (list request_log) :=
  Return (sort_by (fun a b => log_timestamp b <=? log_timestamp a)
            (filter (fun l => log_request_id l =? request_id) logs)).

(** The activity query of the reports over the period [first .. last]:
    [SELECT rl.*, r.customer_name FROM request_logs rl JOIN requests r ON
    rl.request_id = r.id WHERE DATE(rl.timestamp) BETWEEN ? AND ? ORDER BY
    rl.timestamp DESC LIMIT ?]. *)
Definition period_activities (logs : log_store) (db : store) (first last : date)
    (limit : nat) : list (request_log * string) :=
  let joined :=
    flat_map (fun rl =>
                map (fun r => (rl, customer_name r))
                    (filter (fun r => log_request_id rl =? id r) db)) logs in
  let selected :=
    filter (fun row => (first <=? DATE (log_timestamp (fst row)))
                       && (DATE (log_timestamp (fst row)) <=? last)) joined in
  firstn limit
    (sort_by (fun a b => log_timestamp (fst b) <=? log_timestamp (fst a)) selected).

(** The [activities] of [get_daily_report], [get_weekly_report] and
    [get_monthly_report]. *)
Definition daily_activities (logs : log_store) (db : store) (target_date : date)
    : result (list (request_log * string)) :=
  Return (period_activities logs db target_date target_date 50).

Definition weekly_activities (logs : log_store) (db : store) (year week : Z)
    : result (list (request_log * string)) :=
  let jan_1 := _ymd2ord year 1 1 in
  let week_start := jan_1 + 7 * (week - 1) - weekday jan_1 in
  let week_end := week_start + 6 in
  Return (period_activities logs db week_start week_end 100).

Definition monthly_activities (logs : log_store) (db : store) (year month : Z)
    : result (list (request_log * string)) :=
  let start_date := _ymd2ord year month 1 in
  last_day <- monthrange_last_day year month ;;
  let end_date := _ymd2ord year month last_day in
  Return (period_activities logs db start_date end_date 200).

(* ----------------------------------------------------------------- *)
(** ** [User] and [init_database] *)

Module User.

Record user : Type := mkUser {
  id : Z;
  username : string;
  password_hash : string;
  full_name : string;
  email : option string;
  department : option string;
  role : string;
  created_date : timestamp
}.

Definition user_store := list user.

Section Hashing.

(** [hashlib.sha256(b).hexdigest()] of the encoded text. *)
Variable sha256_hexdigest : string -> string.

(** [simple_hash(password)]. *)
Definition simple_hash (password : string) : string := sha256_hexdigest password.

Definition next_rowid (users : user_store) : Z :=
  1 + fold_right (fun u m => Z.max (id u) m) 0 users.

(** [User.create(username, password, full_name, email, department, role)]:
    the new rowid and the table after the INSERT.  The UNIQUE constraint on
    [username] rejects a duplicate. *)
Definition create (users : user_store) (username password full_name : string)
    (email department : option string) (role : string) (now : timestamp)
    : result (Z * user_store) :=
  let password_hash := simple_hash password in
  if existsb (fun u => String.eqb (User.username u) username) users
  then Raise "IntegrityError"
  else
    let user_id := next_rowid users in
    Return (user_id,
            users ++ [mkUser user_id username password_hash full_name email
                        department role now]).

(** [User.verify_password(stored_hash, password)]. *)
Definition verify_password (stored_hash password : string) : bool :=
  String.eqb stored_hash (simple_hash password).

End Hashing.

(** [User.get_by_username(username)]. *)
Definition get_by_username (users : user_store) (name : string) : option user :=
  fetchone (filter (fun u => String.eqb (username u) name) users).

(** [User.get_by_id(user_id)]. *)
Definition get_by_id (users : user_store) (user_id : Z) : option user :=
  fetchone (filter (fun u => id u =? user_id) users).

(** [User.get_all()]: ordered by full name, bytewise. *)
Definition get_all (users : user_store) : list user :=
  sort_by (fun a b => String.leb (full_name a) (full_name b)) users.

End User.

(** [init_database()] on the users table (the CREATE TABLE IF NOT EXISTS
    statements change no row): the default administrator is created when no
    user is called admin. *)
Definition init_database (sha256_hexdigest : string -> string)
    (users : User.user_store) (now : timestamp) : result User.user_store :=
  match User.get_by_username users "admin" with
  | Some _ => Return users
  | None =>
      created <- User.create sha256_hexdigest users "admin" "admin123" "Administrator"
                   (Some "admin@company.com") (Some "IT") "admin" now ;;
      Return (snd created)
  end.

(* ----------------------------------------------------------------- *)
(** ** The status breakdown of the renderers *)

(** [d[key] = v]: an existing key keeps its place, a new one goes last. *)
Fixpoint dict_set {V : Type} (d : list (string * V)) (key : string) (v : V)
    : list (string * V) :=
  match d with
  | [] => [(key, v)]
  | (k, x) :: d' =>
      if String.eqb k key then (k, v) :: d' else (k, x) :: dict_set d' key v
  end.

(** The loop [status_counts[status] = status_counts.get(status, 0) + 1] over
    the requests of a report, the same in both renderers. *)
Definition status_counts (requests : list request) : list (string * Z) :=
  fold_left (fun status_counts req =>
               let status := status req in
               dict_set status_counts status (dict_get status_counts status 0 + 1))
            requests [].

(** The rows of the status breakdown block, label and count; the renderers
    draw the block when the report has requests. *)
Definition status_breakdown (requests : list request) : list (string * Z) :=
  let status_counts := status_counts requests in
  [ ("In Progress", dict_get status_counts "in_progress" 0);
    ("Pending with Presales", dict_get status_counts "Pending with Presales" 0);
    ("Pending Review", dict_get status_counts "Pending review" 0);
    ("Pending Approval", dict_get status_counts "Pending approval" 0);
    ("Closed Requests", dict_get status_counts "Closed Request" 0) ].

(* ----------------------------------------------------------------- *)
(** ** [app.py]: signing in and the default week *)

(** The POST branch of the [login] view: the user the session is opened
    for, or [None] when the view only flashes 'Invalid username or
    password'. *)
Definition login (sha256_hexdigest : string -> string) (users : User.user_store)
    (username password : string) : option User.user :=
  let user := User.get_by_username users username in
  match user with
  | Some u =>
      if User.verify_password sha256_hexdigest (User.password_hash u) password
      then Some u
      else None
  | None => None
  end.

(** [datetime._isoweek1monday(year)]: the ordinal of the Monday that starts
    ISO week 1. *)
Definition _isoweek1monday (year : Z) : Z :=
  let THURSDAY := 3 in
  let firstday := _ymd2ord year 1 1 in
  let firstweekday := (firstday + 6) mod 7 in
  let week1monday := firstday - firstweekday in
  if THURSDAY <? firstweekday then week1monday + 7 else week1monday.

(** [date(year, month, day).isocalendar()]: ISO year, week and weekday. *)
Definition isocalendar (year month day : Z) : Z * Z * Z :=
  let week1monday := _isoweek1monday year in
  let today := _ymd2ord year month day in
  let week := (today - week1monday) / 7 in
  let day' := (today - week1monday) mod 7 in
  if week <? 0 then
    let year := year - 1 in
    let week1monday := _isoweek1monday year in
    let week := (today - week1monday) / 7 in
    let day' := (today - week1monday) mod 7 in
    (year, week + 1, day' + 1)
  else if 52 <=? week then
    if _isoweek1monday (year + 1) <=? today
    then (year + 1, 0 + 1, day' + 1)
    else (year, week + 1, day' + 1)
  else (year, week + 1, day' + 1).

(** The [get_weekly_report] view without a [week] argument: the year of
    today's date and the week number of its ISO calendar; [(y, m, d)] is
    [date.today()]. *)
Definition default_weekly_report (db : store) (y m d : Z) : result report :=
  let year := y in
  let week := snd (fst (isocalendar y m d)) in
  get_weekly_report db year week.

(* ----------------------------------------------------------------- *)
(** ** Vocabulary of the further properties *)

(** [rep] is what one of the three report functions returns on [db]. *)
Definition report_of (db : store) (rep : report) : Prop :=
  (exists target_date, get_daily_report db target_date = Return rep)
  \/ (exists year week, get_weekly_report db year week = Return rep)
  \/ (exists year month, get_monthly_report db year month = Return rep).

(** The first day of the month after [month] of [year]. *)
Definition next_month_start (year month : Z) : date :=
  if month =? 12 then _ymd2ord (year + 1) 1 1 else _ymd2ord year (month + 1) 1.

(** The five statuses the application knows. *)
Definition known_statuses : list string :=
  ["in_progress"; "Pending with Presales"; "Pending review"; "Pending approval";
   "Closed Request"].

(** A small table: an open row, a row under review with a passed target, a
    closed row and a row with a status from before the migration. *)
Definition sample_store : store :=
  [ sample_request 1 (Some "GBB_SDA_0224_IS_001") "in_progress" (_ymd2ord 2024 2 1)
      (SqlInt 5) None 1 (86400 * _ymd2ord 2024 2 1);
    sample_request 2 (Some "GBB_SDA_0224_IS_002") "Pending review" (_ymd2ord 2024 2 5)
      (SqlInt 2) None 1 (86400 * _ymd2ord 2024 2 5);
    sample_request 3 (Some "GBB_SDA_0224_IS_003") "Closed Request" (_ymd2ord 2024 2 6)
      (SqlText "N/A") (Some (_ymd2ord 2024 2 14)) 7 (86400 * _ymd2ord 2024 2 6);
    sample_request 4 (Some "GBB_SDA_0224_IS_004") "Pending with jane" (_ymd2ord 2024 2 7)
      SqlNull None 1 (86400 * _ymd2ord 2024 2 7) ].

(** The update that names no column. *)
Definition empty_update : update_data :=
  mkUpdateData None None None None None None None None None None None None None None
    None.

(** [s] is one of the two statuses that [migrate_status_values] replaces. *)
Definition old_status (s : string) : bool :=
  String.eqb s "Pending with jane" || String.eqb s "Pending Review with mahmud".

(** The status a row has after the migration. *)
Definition migrated_status (s : string) : string :=
  if String.eqb s "Pending with jane" then "Pending review"
  else if String.eqb s "Pending Review with mahmud" then "Pending approval"
  else s.

(** The custom ids of the table, one per row that has one. *)
Definition custom_ids (db : store) : list string :=
  flat_map (fun r => match custom_id r with Some c => [c] | None => [] end) db.

(** The result of filing one more Internet Service request in the sample
    table in month 02/24. *)
Definition sample_created : Z * store :=
  match create sample_store (fst (fst (sample_create "Internet Service"))) "0224"
          (_ymd2ord 2025 3 3) 0 with
  | Return created => created
  | Raise _ => (0, [])
  end.

(** Newest first, for the rows of [request_logs] and for activity rows. *)
Definition log_newest_first (a b : request_log) : Prop :=
  log_timestamp b <= log_timestamp a.

Definition activity_newest_first (a b : request_log * string) : Prop :=
  log_timestamp (fst b) <= log_timestamp (fst a).

(** [acts] is an activity list over the period [first .. last] cut at
    [limit] rows: each row is a log of the table, dated within the period,
    joined to the customer name of the stored request it refers to; the rows
    are at most [limit], newest first; and a log that qualifies is left out
    only when the list is full. *)
Record activity_list (logs : log_store) (db : store) (first last : date) (limit : nat)
    (acts : list (request_log * string)) : Prop := {
  al_members : forall rl name,
    In (rl, name) acts ->
    In rl logs
    /\ first <= DATE (log_timestamp rl) <= last
    /\ exists r, In r db /\ id r = log_request_id rl /\ customer_name r = name;
  al_limit : (length acts <= limit)%nat;
  al_sorted : StronglySorted activity_newest_first acts;
  al_complete : forall rl r,
    In rl logs -> In r db -> id r = log_request_id rl ->
    first <= DATE (log_timestamp rl) <= last ->
    In (rl, customer_name r) acts \/ length acts = limit
}.

(** [acts] is the activity list of one of the three reports on the two
    tables. *)
Definition activities_of (logs : log_store) (db : store)
    (acts : list (request_log * string)) : Prop :=
  (exists target_date, daily_activities logs db target_date = Return acts)
  \/ (exists year week, weekly_activities logs db year week = Return acts)
  \/ (exists year month, monthly_activities logs db year month = Return acts).

(** Three log rows: two of request 2, on 2024-02-13 and 2024-02-14, and one
    of request 7, which the sample table does not hold. *)
Definition sample_logs : log_store :=
  [ mkLog 1 2 1 "Ada" "Changed Status from 'in_progress' to 'Pending review'"
      (Some "status") (Some "in_progress") (Some "Pending review")
      (86400 * _ymd2ord 2024 2 13 + 3600);
    mkLog 2 7 1 "Ada" "Changed Comment from '' to 'call back'"
      (Some "comment") None (Some "call back") (86400 * _ymd2ord 2024 2 14);
    mkLog 3 2 1 "Ada" "Changed Target Days from '2' to '4'"
      (Some "target_days") (Some "2") (Some "4") (86400 * _ymd2ord 2024 2 14 + 60) ].

(** Two users, with the text of the password standing for its digest. *)
Definition sample_users : User.user_store :=
  [ User.mkUser 1 "admin" "secret" "Administrator" (Some "admin@company.com") (Some "IT")
      "admin" 0;
    User.mkUser 2 "ada" "pw" "Ada" None None "user" 10 ].

(* ================================================================= *)
(** * Properties *)

Lemma walk_days_count : forall n current end_ acc,
  end_ - current + 1 = Z.of_nat n ->
  walk_days n current end_ acc
  = acc + Z.of_nat (length (filter is_working_day
                      (map (fun k => current + Z.of_nat k) (seq 0 n)))).
Proof.
  induction n as [|n IH]; intros current end_ acc Hn.
  - simpl. lia.
  - cbn [walk_days].
    assert (Hle : (current <=? end_) = true) by (apply Z.leb_le; lia).
    rewrite Hle. rewrite IH by lia.
    cbn [seq map filter]. rewrite Z.add_0_r. unfold is_working_day at 2.
    rewrite <- seq_shift, map_map.
    replace (map (fun x => current + 1 + Z.of_nat x) (seq 0 n))
      with (map (fun x => current + Z.of_nat (S x)) (seq 0 n))
      by (apply map_ext; intros; lia).
    destruct (weekday current <? 5); cbn [length]; lia.
Qed.

(** The fuel given by [calculate_working_days] covers the whole range: on
    leaving the loop the guard [current_date <= end] is false. *)
Lemma walk_days_enough : forall start end_,
  start < end_ ->
  walk_days (Z.to_nat (end_ - start)) (start + 1) end_ 0 = working_days_in start end_.
Proof.
  intros start end_ Hlt. unfold working_days_in, days_after.
  rewrite (walk_days_count _ _ end_) by lia.
  rewrite Z.add_0_l. reflexivity.
Qed.

(** More fuel changes nothing: the loop has stopped on its guard. *)
Lemma walk_days_fuel : forall extra n current end_ acc,
  end_ - current + 1 <= Z.of_nat n ->
  walk_days (n + extra) current end_ acc = walk_days n current end_ acc.
Proof.
  intros extra n. induction n as [|n IH]; intros current end_ acc Hn.
  - destruct extra as [|extra]; [reflexivity|].
    cbn [Nat.add walk_days].
    replace (current <=? end_) with false by (symmetry; apply Z.leb_gt; lia).
    reflexivity.
  - cbn [Nat.add walk_days].
    destruct (current <=? end_) eqn:Hle; [|reflexivity].
    apply IH. lia.
Qed.







(* ----------------------------------------------------------------- *)
(** ** Sorting *)

Section SortBy.
Context {A : Type} (le : A -> A -> bool).

Lemma insert_sorted_perm : forall x l, Permutation (insert_sorted le x l) (x :: l).
Proof.
  intros x l. induction l as [|y l IH]; cbn [insert_sorted].
  - apply Permutation_refl.
  - destruct (le x y).
    + apply Permutation_refl.
    + apply perm_trans with (y :: x :: l).
      * apply perm_skip, IH.
      * apply perm_swap.
Qed.

Lemma sort_by_perm : forall l, Permutation (sort_by le l) l.
Proof.
  induction l as [|x l IH]; cbn [sort_by].
  - apply perm_nil.
  - apply perm_trans with (x :: sort_by le l).
    + apply insert_sorted_perm.
    + apply perm_skip, IH.
Qed.

Lemma sort_by_In : forall l x, In x (sort_by le l) <-> In x l.
Proof.
  intros l x. split; apply Permutation_in.
  - apply sort_by_perm.
  - apply Permutation_sym, sort_by_perm.
Qed.

Hypothesis le_total : forall x y, le x y = true \/ le y x = true.
Hypothesis le_trans : forall x y z, le x y = true -> le y z = true -> le x z = true.

Let R (x y : A) : Prop := le x y = true.

Lemma insert_sorted_sorted : forall x l,
  StronglySorted R l -> StronglySorted R (insert_sorted le x l).
Proof.
  intros x l Hs. induction Hs as [|y l Hs IH Hy]; cbn [insert_sorted].
  - constructor; constructor.
  - destruct (le x y) eqn:Hxy.
    + constructor.
      * constructor; assumption.
      * constructor; [exact Hxy|].
        rewrite Forall_forall in Hy |- *. intros z Hz.
        apply le_trans with y; [exact Hxy | apply Hy, Hz].
    + constructor; [exact IH|].
      rewrite Forall_forall in Hy |- *. intros z Hz.
      apply (Permutation_in _ (insert_sorted_perm x l)) in Hz.
      destruct Hz as [<-|Hz]; [|apply Hy, Hz].
      destruct (le_total x y) as [H|H]; [congruence | exact H].
Qed.

Lemma sort_by_sorted : forall l, StronglySorted R (sort_by le l).
Proof.
  induction l as [|x l IH]; cbn [sort_by].
  - constructor.
  - apply insert_sorted_sorted, IH.
Qed.
End SortBy.


Lemma StronglySorted_weaken {A : Type} (R1 R2 : A -> A -> Prop) :
  (forall x y, R1 x y -> R2 x y) ->
  forall l, StronglySorted R1 l -> StronglySorted R2 l.
Proof.
  intros HR l Hs. induction Hs as [|x l Hs IH Hx]; constructor.
  - exact IH.
  - eapply Forall_impl; [|exact Hx]. intros y. apply HR.
Qed.

(* ----------------------------------------------------------------- *)
(** ** Reports: the working request set *)

Lemma is_closed_true : forall r, is_closed r = true <-> status r = "Closed Request".
Proof. intros r. unfold is_closed. apply String.eqb_eq. Qed.






(* ----------------------------------------------------------------- *)
(** ** Reading the table *)

(** [calculate_working_days] never raises; its value in closed form. *)
Lemma calculate_working_days_returns : forall start end_date today,
  calculate_working_days start end_date today
  = Return (elapsed_working_days start (get_or end_date today)).
Proof.
  intros start end_date today. unfold calculate_working_days, elapsed_working_days.
  set (end_ := match end_date with Some e => e | None => today end).
  replace (get_or end_date today) with end_ by (destruct end_date; reflexivity).
  destruct (start =? end_) eqn:Heq.
  - apply Z.eqb_eq in Heq.
    replace (start <? end_) with false by (symmetry; apply Z.ltb_ge; lia).
    reflexivity.
  - apply Z.eqb_neq in Heq. destruct (start <? end_) eqn:Hlt.
    + apply Z.ltb_lt in Hlt. rewrite walk_days_enough by lia. f_equal. lia.
    + apply Z.ltb_ge in Hlt. replace (Z.to_nat (end_ - start)) with O by lia.
      reflexivity.
Qed.











(* ----------------------------------------------------------------- *)
(** ** Closing a request *)





(* ----------------------------------------------------------------- *)
(** ** Dashboard statistics *)

Lemma py_int_raises_ValueError : forall s e, py_int s = Raise e -> e = "ValueError".
Proof.
  intros s e. unfold py_int.
  destruct (strip (chars s)) as [|c cs].
  - cbn. intros H. injection H as <-. reflexivity.
  - assert (Hbody : forall sign cs0,
      match parse_digits cs0 0 true with
      | Some n => Return (sign * n)
      | None => Raise "ValueError"
      end = Raise e -> e = "ValueError").
    { intros sign cs0. destruct (parse_digits cs0 0 true); intros H;
        [discriminate | injection H as <-; reflexivity]. }
    destruct c as [[] [] [] [] [] [] [] []]; apply Hbody.
Qed.

(** One turn of the loop adds one exactly for a counted row, and never
    raises. *)
Lemma stats_step_counts : forall today overdue row,
  stats_step today overdue row
  = Return (if counted_overdue today row then overdue + 1 else overdue).
Proof.
  intros today overdue row. unfold stats_step, counted_overdue, current_duration.
  rewrite calculate_working_days_returns. cbn [get_or].
  replace (if negb (is_closed row)
           then Return (elapsed_working_days (date_request_received row) today)
           else Return (duration_days row))
    with (Return (if is_closed row then duration_days row
                  else elapsed_working_days (date_request_received row) today))
    by (destruct (is_closed row); reflexivity).
  cbn [bind].
  set (d := if is_closed row then _ else _).
  destruct (target_days row) as [|n|s]; cbn [truthy numeric_target].
  - reflexivity.
  - destruct (n =? 0) eqn:Hn; cbn [negb].
    + apply Z.eqb_eq in Hn. subst n. reflexivity.
    + cbn. destruct ((0 <? n) && (n <? d)); reflexivity.
  - unfold exceeds_target. destruct (String.eqb_spec s "") as [->|Hne]; cbn [negb].
    + reflexivity.
    + destruct (py_int s) as [n|e] eqn:Hs.
      * cbn. destruct ((0 <? n) && (n <? d)); reflexivity.
      * apply py_int_raises_ValueError in Hs as ->. reflexivity.
Qed.

Lemma for_each_stats_step : forall today rows acc,
  for_each rows (stats_step today) acc
  = Return (acc + count (counted_overdue today) rows).
Proof.
  intros today rows. unfold count.
  induction rows as [|r rows IH]; intros acc; cbn [for_each filter length].
  - f_equal. cbn. lia.
  - rewrite stats_step_counts. cbn [bind]. rewrite IH. f_equal.
    destruct (counted_overdue today r); cbn [length]; lia.
Qed.



(** The overdue figure of a report does not depend on the period: it counts,
    over the whole table, the rows whose stored duration exceeds an integer
    target. *)
Lemma period_report_overdue_global : forall db first last,
  rp_overdue (period_report db first last)
  = count (fun r => match target_days r with
                    | SqlInt n => n <? duration_days r
                    | _ => false
                    end) db.
Proof.
  intros db first last. cbn [period_report rp_overdue]. unfold count.
  do 2 f_equal. apply filter_ext. intros r.
  destruct (target_days r); reflexivity.
Qed.

(** C7. The overdue figure of the reports is not the live one of
    [get_stats]: for an open request received on Monday 2024-01-01 with a
    target of 3 days and a stored duration of 1, read on Wednesday
    2024-01-10, [get_stats] counts the request as overdue (its live duration
    is 8) while the daily, the weekly and the monthly report count none,
    since they compare the stored duration. *)
Lemma report_overdue_uses_stored_duration :
  (exists st,
      get_stats [sample_request 1 None "in_progress" (_ymd2ord 2024 1 1) (SqlInt 3) None 1 0]
        (_ymd2ord 2024 1 10) = Return st
      /\ st_overdue st = 1)
  /\ (exists daily,
        get_daily_report
          [sample_request 1 None "in_progress" (_ymd2ord 2024 1 1) (SqlInt 3) None 1 0]
          (_ymd2ord 2024 1 10) = Return daily
        /\ rp_overdue daily = 0)
  /\ (exists weekly,
        get_weekly_report
          [sample_request 1 None "in_progress" (_ymd2ord 2024 1 1) (SqlInt 3) None 1 0]
          2024 2 = Return weekly
        /\ rp_overdue weekly = 0)
  /\ (exists monthly,
        get_monthly_report
          [sample_request 1 None "in_progress" (_ymd2ord 2024 1 1) (SqlInt 3) None 1 0]
          2024 1 = Return monthly
        /\ rp_overdue monthly = 0).
Proof. repeat split; eexists; split; vm_compute; reflexivity. Qed.

(* ----------------------------------------------------------------- *)
(** ** The two renderers *)

Ltac by_status s :=
  repeat match goal with
         | |- context [String.eqb ?k s] =>
             lazymatch k with
             | s => fail
             | _ => rewrite (String.eqb_sym k s)
             end
         end;
  repeat match goal with
         | |- context [String.eqb s ?k] => destruct (String.eqb s k)
         end.

Lemma entry_get_hex : forall e, entry_get e "hex" = Some (Hex (ce_hex e)).
Proof. reflexivity. Qed.

Lemma entry_get_reportlab : forall e,
  entry_get e "reportlab" = Some (Reportlab (ce_reportlab e)).
Proof. reflexivity. Qed.

Lemma get_status_color_hex : forall status,
  get_status_color status "hex" = Return (Hex ("#" ++ status_hex status)).
Proof.
  intros status. unfold get_status_color. rewrite !entry_get_hex. cbn [get_or].
  do 2 f_equal. unfold status_hex, colors_map. cbn [dict_get].
  by_status status; reflexivity.
Qed.


Lemma get_status_color_reportlab : forall status,
  get_status_color status "reportlab"
  = Return (Reportlab (ce_reportlab (dict_get colors_map status default_color)))
  /\ same_colour (ce_reportlab (dict_get colors_map status default_color))
       (status_hex status).
Proof.
  intros status. split.
  - unfold get_status_color. rewrite !entry_get_reportlab. reflexivity.
  - unfold same_colour, status_hex, colors_map. cbn [dict_get].
    by_status status; do 3 eexists; (split; [reflexivity|]); repeat split; reflexivity.
Qed.
















(* ----------------------------------------------------------------- *)
(** ** Text order and text operations *)

Lemma ascii_compare_refl : forall a, Ascii.compare a a = Eq.
Proof. intros a. unfold Ascii.compare. apply N.compare_refl. Qed.

Lemma string_compare_refl : forall s, String.compare s s = Eq.
Proof.
  induction s as [|c s IH]; cbn [String.compare]; [reflexivity|].
  rewrite ascii_compare_refl. exact IH.
Qed.

Lemma string_leb_refl : forall s, String.leb s s = true.
Proof. intros s. unfold String.leb. rewrite string_compare_refl. reflexivity. Qed.

Lemma string_leb_trans : forall a b c,
  String.leb a b = true -> String.leb b c = true -> String.leb a c = true.
Proof.
  unfold String.leb.
  induction a as [|x a IH]; intros [|y b] [|z c]; cbn [String.compare];
    try reflexivity; try discriminate.
  unfold Ascii.compare.
  destruct (N.compare_spec (N_of_ascii x) (N_of_ascii y)) as [Hxy|Hxy|Hxy];
    destruct (N.compare_spec (N_of_ascii y) (N_of_ascii z)) as [Hyz|Hyz|Hyz];
    try discriminate; intros H1 H2.
  - replace (N_of_ascii x ?= N_of_ascii z)%N with Eq
      by (symmetry; apply N.compare_eq_iff; congruence).
    apply (IH b c H1 H2).
  - replace (N_of_ascii x ?= N_of_ascii z)%N with Lt
      by (symmetry; apply N.compare_lt_iff; rewrite Hxy; exact Hyz).
    reflexivity.
  - replace (N_of_ascii x ?= N_of_ascii z)%N with Lt
      by (symmetry; apply N.compare_lt_iff; rewrite <- Hyz; exact Hxy).
    reflexivity.
  - replace (N_of_ascii x ?= N_of_ascii z)%N with Lt
      by (symmetry; apply N.compare_lt_iff; eapply N.lt_trans; eassumption).
    reflexivity.
Qed.

Lemma string_compare_app : forall p a b,
  String.compare (p ++ a) (p ++ b) = String.compare a b.
Proof.
  induction p as [|c p IH]; intros a b; cbn [String.append String.compare];
    [reflexivity|].
  rewrite ascii_compare_refl. apply IH.
Qed.

Lemma string_leb_app : forall p a b, String.leb (p ++ a) (p ++ b) = String.leb a b.
Proof. intros p a b. unfold String.leb. rewrite string_compare_app. reflexivity. Qed.

Lemma string_app_assoc : forall a b c : string, ((a ++ b) ++ c = a ++ (b ++ c))%string.
Proof.
  induction a as [|x a IH]; intros b c; cbn [String.append]; [reflexivity|].
  f_equal. apply IH.
Qed.

Lemma string_app_inv_head : forall p a b : string, (p ++ a = p ++ b)%string -> a = b.
Proof.
  induction p as [|c p IH]; intros a b H; cbn [String.append] in H; [exact H|].
  injection H as H. apply IH, H.
Qed.

Lemma chars_app : forall a b : string, chars (a ++ b) = chars a ++ chars b.
Proof.
  unfold chars. induction a as [|c a IH]; intros b;
    cbn [String.append list_ascii_of_string app]; [reflexivity|].
  f_equal. apply IH.
Qed.

Lemma like_chars_percent : forall p s,
  like_chars ("%"%char :: p) s
  = like_chars p s
    || match s with [] => false | _ :: s' => like_chars ("%"%char :: p) s' end.
Proof. intros p s. destruct s; reflexivity. Qed.

Lemma like_chars_literal : forall c p d s,
  Ascii.eqb c "%" = false ->
  like_chars (c :: p) (d :: s)
  = (Ascii.eqb c "_" || Ascii.eqb (upper c) (upper d)) && like_chars p s.
Proof. intros c p d s Hc. cbn [like_chars]. rewrite Hc. reflexivity. Qed.

(** Every text matches the pattern made of a prefix of it followed by [%]. *)
Lemma like_prefix : forall p s : string, like (p ++ s) (p ++ "%") = true.
Proof.
  intros p s. unfold like. rewrite !chars_app.
  assert (Hany : forall t : list ascii, like_chars (chars "%") t = true).
  { induction t as [|d t IH]; [reflexivity|].
    change (chars "%") with ["%"%char] in *.
    rewrite like_chars_percent, IH. apply orb_true_r. }
  induction (chars p) as [|c q IH]; cbn [app]; [apply Hany|].
  destruct (Ascii.eqb c "%") eqn:Hc.
  - apply Ascii.eqb_eq in Hc. subst c.
    rewrite like_chars_percent, (like_chars_percent _ (q ++ chars s)), IH.
    apply orb_true_r.
  - rewrite (like_chars_literal _ _ _ _ Hc), Ascii.eqb_refl, orb_true_r, IH.
    reflexivity.
Qed.

Lemma split_nonempty : forall sep s, split sep s <> [].
Proof.
  intros sep s. destruct s as [|c s]; cbn [split]; [discriminate|].
  destruct (Ascii.eqb c sep); [discriminate|].
  destruct (split sep s); discriminate.
Qed.

Lemma split_app_sep : forall sep a b,
  split sep (a ++ String sep b) = split sep a ++ split sep b.
Proof.
  intros sep a b. induction a as [|c a IH]; cbn [String.append split].
  - rewrite Ascii.eqb_refl. reflexivity.
  - destruct (Ascii.eqb c sep); rewrite IH; [reflexivity|].
    destruct (split sep a) as [|h t] eqn:Ha; [destruct (split_nonempty _ _ Ha)|].
    reflexivity.
Qed.

Lemma last_item_last {A : Type} : forall (xs : list A) (d : A),
  xs <> [] -> last_item xs = Return (last xs d).
Proof.
  intros xs d Hne. unfold last_item.
  destruct (rev xs) as [|x l] eqn:Hrev.
  - apply (f_equal (@rev A)) in Hrev. rewrite rev_involutive in Hrev. contradiction.
  - apply (f_equal (@rev A)) in Hrev. rewrite rev_involutive in Hrev.
    cbn [rev] in Hrev. rewrite Hrev, last_last. reflexivity.
Qed.

Lemma last_item_split : forall s,
  last_item (split "_" s) = Return (final_component s).
Proof. intros s. apply last_item_last, split_nonempty. Qed.

Lemma last_app_nonempty {A : Type} : forall (l1 l2 : list A) (d : A),
  l2 <> [] -> last (l1 ++ l2) d = last l2 d.
Proof.
  intros l1 l2 d Hne. destruct l2 as [|x l2]; [contradiction|].
  induction l1 as [|a l1 IH]; [reflexivity|].
  cbn [app]. rewrite <- IH. cbn [last].
  destruct (l1 ++ x :: l2) eqn:E; [destruct l1; discriminate | reflexivity].
Qed.

(** The final component of a text that ends with an underscore and a
    suffix is the final component of the suffix. *)
Lemma final_component_app : forall p s,
  final_component (p ++ "_" ++ s) = final_component s.
Proof.
  intros p s. unfold final_component.
  change ("_" ++ s)%string with (String "_" s).
  rewrite split_app_sep. apply last_app_nonempty, split_nonempty.
Qed.

(* ----------------------------------------------------------------- *)
(** ** The last id of a bucket *)

(** The row fetched first from a descending sort is a greatest element. *)
Lemma fetchone_greatest : forall (ids : list string) (m : string),
  fetchone (sort_by (fun a b => String.leb b a) ids) = Some m
  <-> In m ids /\ forall c, In c ids -> String.leb c m = true.
Proof.
  intros ids m.
  pose proof (sort_by_sorted (fun a b => String.leb b a)
                (fun x y => String.leb_total y x)
                (fun x y z H1 H2 => string_leb_trans z y x H2 H1) ids) as Hs.
  pose proof (sort_by_In (fun a b => String.leb b a) ids) as Hin.
  destruct (sort_by (fun a b => String.leb b a) ids) as [|h t] eqn:Hsort;
    cbn [fetchone hd_error].
  - split; [discriminate|]. intros [Hm _]. apply Hin in Hm. contradiction.
  - inversion Hs as [|? ? _ Hh]; subst. rewrite Forall_forall in Hh.
    assert (Hmax : forall c, In c ids -> String.leb c h = true).
    { intros c Hc. apply Hin in Hc. destruct Hc as [<-|Hc];
        [apply string_leb_refl | apply Hh, Hc]. }
    split.
    + intros H. injection H as <-. split; [apply Hin; left; reflexivity | exact Hmax].
    + intros [Hm Hall]. f_equal. apply String.leb_antisym.
      * apply Hall, Hin. left. reflexivity.
      * apply Hmax, Hm.
Qed.

Lemma In_bucket_ids : forall db pattern c,
  In c (flat_map (fun r => match custom_id r with
                           | Some c => if like c pattern then [c] else []
                           | None => []
                           end) db)
  <-> (exists r, In r db /\ custom_id r = Some c) /\ like c pattern = true.
Proof.
  intros db pattern c. rewrite in_flat_map. split.
  - intros [r [Hr Hc]]. destruct (custom_id r) as [c'|] eqn:Hid; [|contradiction].
    destruct (like c' pattern) eqn:Hl; [|contradiction].
    destruct Hc as [<-|[]]. split; [exists r; auto | exact Hl].
  - intros [[r [Hr Hid]] Hl]. exists r. split; [exact Hr|].
    rewrite Hid, Hl. left. reflexivity.
Qed.

(** The query of [generate_custom_id] fetches the greatest id of the
    bucket under the bytewise text order, when the bucket has one. *)
Lemma last_custom_id_greatest : forall db service_type mmyy m,
  last_custom_id db (id_prefix service_type mmyy ++ "%") = Some m
  <-> bucket_id db service_type mmyy m
      /\ forall c, bucket_id db service_type mmyy c -> String.leb c m = true.
Proof.
  intros db service_type mmyy m. unfold last_custom_id, bucket_id.
  rewrite fetchone_greatest, In_bucket_ids. split.
  - intros [Hm Hall]. split; [exact Hm|]. intros c Hc.
    apply Hall, In_bucket_ids, Hc.
  - intros [Hm Hall]. split; [exact Hm|]. intros c Hc.
    apply Hall, In_bucket_ids, Hc.
Qed.

Lemma last_custom_id_none : forall db service_type mmyy,
  (forall c, ~ bucket_id db service_type mmyy c) ->
  last_custom_id db (id_prefix service_type mmyy ++ "%") = None.
Proof.
  intros db service_type mmyy Hnone.
  destruct (last_custom_id db (id_prefix service_type mmyy ++ "%")) as [m|] eqn:H;
    [|reflexivity].
  apply last_custom_id_greatest in H. destruct H as [H _].
  destruct (Hnone m H).
Qed.

(* ----------------------------------------------------------------- *)
(** ** Generating identifiers *)

Lemma generate_custom_id_unfold : forall db service_type mmyy,
  generate_custom_id db service_type mmyy
  = (next_number <-
       match last_custom_id db (id_prefix service_type mmyy ++ "%") with
       | Some last_id =>
           try_except
             (last_number <- py_int (final_component last_id) ;;
              Return (last_number + 1))
             ["ValueError"; "IndexError"]
             (Return 1)
       | None => Return 1
       end ;;
     Return (id_prefix service_type mmyy ++ format_03d next_number)%string).
Proof.
  intros db service_type mmyy. unfold generate_custom_id, id_prefix.
  destruct (last_custom_id _ _) as [last_id|]; [|reflexivity].
  cbn [bind]. rewrite last_item_split. reflexivity.
Qed.



Lemma forallb_range : forall (f : Z -> bool) (n : nat),
  forallb f (map Z.of_nat (seq 0 n)) = true ->
  forall k, 0 <= k < Z.of_nat n -> f k = true.
Proof.
  intros f n H k Hk. rewrite forallb_forall in H. apply H.
  apply in_map_iff. exists (Z.to_nat k). split; [lia|].
  apply in_seq. lia.
Qed.

Lemma suffix_ok_all : forall k, 0 <= k <= 999 -> suffix_ok k = true.
Proof.
  intros k Hk. apply (forallb_range suffix_ok 1000); [vm_compute; reflexivity | lia].
Qed.

Lemma suffix_lt_next_all : forall k, 0 <= k <= 998 -> suffix_lt_next k = true.
Proof.
  intros k Hk. apply (forallb_range suffix_lt_next 999); [vm_compute; reflexivity | lia].
Qed.

Lemma suffix_py_int : forall k, 0 <= k <= 999 -> py_int (format_03d k) = Return k.
Proof.
  intros k Hk. pose proof (suffix_ok_all k Hk) as H. unfold suffix_ok in H.
  rewrite !andb_true_iff in H. destruct H as [[[H _] _] _].
  destruct (py_int (format_03d k)) as [n|]; [|discriminate].
  apply Z.eqb_eq in H. congruence.
Qed.

Lemma suffix_final_component : forall k, 0 <= k <= 999 ->
  final_component (format_03d k) = format_03d k.
Proof.
  intros k Hk. pose proof (suffix_ok_all k Hk) as H. unfold suffix_ok in H.
  rewrite !andb_true_iff in H. destruct H as [_ H]. apply String.eqb_eq, H.
Qed.

Lemma suffix_three_digits : forall k, 0 <= k <= 999 ->
  String.length (format_03d k) = 3%nat
  /\ forallb is_digit (chars (format_03d k)) = true.
Proof.
  intros k Hk. pose proof (suffix_ok_all k Hk) as H. unfold suffix_ok in H.
  rewrite !andb_true_iff in H. destruct H as [[[_ H1] H2] _].
  split; [apply Nat.eqb_eq, H1 | exact H2].
Qed.

Lemma string_ltb_leb : forall a b, String.ltb a b = true -> String.leb a b = true.
Proof.
  intros a b. unfold String.ltb, String.leb.
  destruct (String.compare a b); [discriminate | reflexivity | discriminate].
Qed.

(** Up to 999 the text order of the suffixes is the order of the numbers. *)
Lemma suffix_leb : forall j k, 0 <= j -> j <= k -> k <= 999 ->
  String.leb (format_03d j) (format_03d k) = true.
Proof.
  intros j k Hj Hjk Hk.
  replace k with (j + Z.of_nat (Z.to_nat (k - j))) in * by lia.
  induction (Z.to_nat (k - j)) as [|d IH].
  - rewrite Z.add_0_r. apply string_leb_refl.
  - apply string_leb_trans with (format_03d (j + Z.of_nat d)).
    + apply IH; lia.
    + apply string_ltb_leb.
      replace (j + Z.of_nat (S d)) with (j + Z.of_nat d + 1) by lia.
      apply suffix_lt_next_all. lia.
Qed.

Lemma id_prefix_app : forall service_type mmyy s,
  (id_prefix service_type mmyy ++ s
   = ("GBB_SDA_" ++ mmyy ++ "_" ++ get_service_slug service_type) ++ "_" ++ s)%string.
Proof.
  intros service_type mmyy s. unfold id_prefix.
  rewrite !string_app_assoc. reflexivity.
Qed.

Lemma final_component_id : forall service_type mmyy s,
  final_component (id_prefix service_type mmyy ++ s) = final_component s.
Proof.
  intros service_type mmyy s. rewrite id_prefix_app. apply final_component_app.
Qed.

Lemma custom_id_taken_spec : forall db c,
  custom_id_taken db c = true <-> exists r, In r db /\ custom_id r = Some c.
Proof.
  intros db c. unfold custom_id_taken. rewrite existsb_exists. split.
  - intros [r [Hr H]]. exists r. split; [exact Hr|].
    destruct (custom_id r) as [c'|]; [|discriminate].
    apply String.eqb_eq in H. congruence.
  - intros [r [Hr H]]. exists r. split; [exact Hr|].
    rewrite H. apply String.eqb_refl.
Qed.

(** A table made of rows outside the bucket followed by rows whose ids are
    the bucket's prefix with the suffixes [sfx]. *)
Section Bucket.
Variables (db0 : store) (service_type mmyy : string).
Hypothesis bucket_empty : forall c, ~ bucket_id db0 service_type mmyy c.

Let pre := id_prefix service_type mmyy.

Variables (rows : list request) (sfx : list string).
Hypothesis rows_ids :
  map custom_id rows = map (fun s => Some (pre ++ s)%string) sfx.

Lemma bucket_id_rows : forall c,
  bucket_id (db0 ++ rows) service_type mmyy c
  <-> exists s, In s sfx /\ c = (pre ++ s)%string.
Proof.
  intros c. split.
  - intros [[r [Hr Hc]] Hlike]. apply in_app_or in Hr. destruct Hr as [Hr|Hr].
    + exfalso. apply (bucket_empty c). split; [exists r; auto | exact Hlike].
    + assert (H : In (Some c) (map custom_id rows))
        by (rewrite <- Hc; apply in_map, Hr).
      rewrite rows_ids in H. apply in_map_iff in H.
      destruct H as [s [Hs Hin]]. exists s. split; [exact Hin | congruence].
  - intros [s [Hs ->]]. split; [|apply like_prefix].
    assert (H : In (Some (pre ++ s)%string) (map custom_id rows))
      by (rewrite rows_ids; apply (in_map (fun s => Some (pre ++ s)%string)), Hs).
    apply in_map_iff in H. destruct H as [r [Hr Hin]].
    exists r. split; [apply in_or_app; right; exact Hin | exact Hr].
Qed.

Lemma custom_id_taken_rows : forall s,
  custom_id_taken (db0 ++ rows) (pre ++ s) = true <-> In s sfx.
Proof.
  intros s. rewrite custom_id_taken_spec. split.
  - intros H. assert (Hb : bucket_id (db0 ++ rows) service_type mmyy (pre ++ s))
      by (split; [exact H | apply like_prefix]).
    apply bucket_id_rows in Hb. destruct Hb as [s' [Hs' Heq]].
    apply string_app_inv_head in Heq. subst s'. exact Hs'.
  - intros Hs. apply (bucket_id_rows (pre ++ s)). exists s. auto.
Qed.

Lemma generate_custom_id_first :
  sfx = [] ->
  generate_custom_id (db0 ++ rows) service_type mmyy = Return (pre ++ "001")%string.
Proof.
  intros Hnil. rewrite generate_custom_id_unfold, last_custom_id_none; [reflexivity|].
  intros c Hc. apply bucket_id_rows in Hc. destruct Hc as [s [Hs _]].
  rewrite Hnil in Hs. contradiction.
Qed.

Lemma generate_custom_id_next : forall m n,
  In m sfx ->
  (forall s, In s sfx -> String.leb s m = true) ->
  py_int (final_component m) = Return n ->
  generate_custom_id (db0 ++ rows) service_type mmyy
  = Return (pre ++ format_03d (n + 1))%string.
Proof.
  intros m n Hm Hmax Hint. rewrite generate_custom_id_unfold.
  assert (Hlast : last_custom_id (db0 ++ rows) (id_prefix service_type mmyy ++ "%")
                  = Some (pre ++ m)%string).
  { apply last_custom_id_greatest. split.
    - apply bucket_id_rows. exists m. auto.
    - intros c Hc. apply bucket_id_rows in Hc. destruct Hc as [s [Hs ->]].
      unfold pre. rewrite string_leb_app. apply Hmax, Hs. }
  rewrite Hlast. unfold pre. rewrite final_component_id, Hint. reflexivity.
Qed.

(** [create] files the request under the id [generate_custom_id] returns
    when that id is not stored yet. *)
Lemma create_appends : forall call s,
  call_service_type call = service_type ->
  generate_custom_id (db0 ++ rows) service_type mmyy = Return (pre ++ s)%string ->
  ~ In s sfx ->
  exists rid row,
    create (db0 ++ rows) (fst (fst call)) mmyy (snd (fst call)) (snd call)
    = Return (rid, (db0 ++ rows) ++ [row])
    /\ custom_id row = Some (pre ++ s)%string.
Proof.
  intros [[data today] now] s Hst Hgen Hfresh. cbn [fst snd].
  unfold call_service_type in Hst. cbn [fst] in Hst.
  unfold create. rewrite Hst, Hgen. cbn [bind].
  rewrite calculate_working_days_returns. cbn [bind].
  destruct (custom_id_taken (db0 ++ rows) (pre ++ s)) eqn:Htaken.
  - apply custom_id_taken_rows in Htaken. contradiction.
  - do 2 eexists. split; reflexivity.
Qed.

Lemma create_rejects : forall call s,
  call_service_type call = service_type ->
  generate_custom_id (db0 ++ rows) service_type mmyy = Return (pre ++ s)%string ->
  In s sfx ->
  create (db0 ++ rows) (fst (fst call)) mmyy (snd (fst call)) (snd call)
  = Raise "IntegrityError".
Proof.
  intros [[data today] now] s Hst Hgen Htaken. cbn [fst snd].
  unfold call_service_type in Hst. cbn [fst] in Hst.
  unfold create. rewrite Hst, Hgen. cbn [bind].
  rewrite calculate_working_days_returns. cbn [bind].
  apply custom_id_taken_rows in Htaken. rewrite Htaken. reflexivity.
Qed.
End Bucket.

Lemma bucket_sequence_suffixes : forall service_type mmyy n,
  map Some (bucket_sequence service_type mmyy n)
  = map (fun s => Some (id_prefix service_type mmyy ++ s)%string) (suffixes n).
Proof.
  intros service_type mmyy n. unfold bucket_sequence, suffixes.
  rewrite !map_map. reflexivity.
Qed.

Lemma In_suffixes : forall n s,
  In s (suffixes n) <-> exists j, 1 <= j <= Z.of_nat n /\ s = format_03d j.
Proof.
  intros n s. unfold suffixes. rewrite in_map_iff. split.
  - intros [j [<- Hj]]. apply in_seq in Hj. exists (Z.of_nat j). split; [lia | reflexivity].
  - intros [j [Hj ->]]. exists (Z.to_nat j). split; [f_equal; lia | apply in_seq; lia].
Qed.

Lemma suffixes_S : forall n, suffixes (S n) = suffixes n ++ [format_03d (Z.of_nat (S n))].
Proof. intros n. unfold suffixes. rewrite seq_S, map_app. reflexivity. Qed.

(** The next suffix is not among the earlier ones. *)
Lemma suffix_fresh : forall n k,
  (n <= 999)%nat -> Z.of_nat n < k -> py_int (format_03d k) = Return k ->
  ~ In (format_03d k) (suffixes n).
Proof.
  intros n k Hn Hk Hint Hin. apply In_suffixes in Hin.
  destruct Hin as [j [Hj Heq]].
  rewrite Heq, suffix_py_int in Hint by lia. injection Hint as Hint. lia.
Qed.

(** From a bucket holding the ids 1 to [k], the generator returns the id
    numbered [k + 1], as long as [k] stays within three digits. *)
Lemma generate_custom_id_sequence :
  forall db0 service_type mmyy rows k,
    (forall c, ~ bucket_id db0 service_type mmyy c) ->
    map custom_id rows = map Some (bucket_sequence service_type mmyy k) ->
    (k <= 999)%nat ->
    generate_custom_id (db0 ++ rows) service_type mmyy
    = Return (id_prefix service_type mmyy ++ format_03d (Z.of_nat (S k)))%string.
Proof.
  intros db0 service_type mmyy rows k Hempty Hrows Hk.
  rewrite bucket_sequence_suffixes in Hrows.
  destruct k as [|k].
  - apply (generate_custom_id_first db0 service_type mmyy Hempty rows (suffixes 0) Hrows).
    reflexivity.
  - replace (Z.of_nat (S (S k))) with (Z.of_nat (S k) + 1) by lia.
    apply (generate_custom_id_next db0 service_type mmyy Hempty rows (suffixes (S k)) Hrows
             (format_03d (Z.of_nat (S k)))).
    + apply In_suffixes. exists (Z.of_nat (S k)). split; [lia | reflexivity].
    + intros s Hs. apply In_suffixes in Hs. destruct Hs as [j [Hj ->]].
      apply suffix_leb; lia.
    + rewrite suffix_final_component by lia. apply suffix_py_int. lia.
Qed.

Lemma create_many_app : forall calls1 calls2 db mmyy,
  create_many db (calls1 ++ calls2) mmyy
  = (db1 <- create_many db calls1 mmyy ;; create_many db1 calls2 mmyy).
Proof.
  induction calls1 as [|[[data today] now] calls1 IH]; intros calls2 db mmyy;
    cbn [app create_many]; [reflexivity|].
  destruct (create db data mmyy today now) as [created|e]; cbn [bind]; [apply IH|reflexivity].
Qed.

Lemma create_many_sequence :
  forall db0 service_type mmyy,
    (forall c, ~ bucket_id db0 service_type mmyy c) ->
    forall calls rows k,
      map custom_id rows = map Some (bucket_sequence service_type mmyy k) ->
      Forall (fun call => call_service_type call = service_type) calls ->
      (k + length calls <= 999)%nat ->
      exists rows',
        create_many (db0 ++ rows) calls mmyy = Return (db0 ++ rows')
        /\ map custom_id rows'
           = map Some (bucket_sequence service_type mmyy (k + length calls)).
Proof.
  intros db0 service_type mmyy Hempty.
  induction calls as [|call calls IH]; intros rows k Hrows Hst Hlen.
  - exists rows. cbn [create_many length]. rewrite Nat.add_0_r. auto.
  - cbn [length] in Hlen. apply Forall_cons_iff in Hst. destruct Hst as [Hcall Hrest].
    pose proof (generate_custom_id_sequence db0 service_type mmyy rows k Hempty Hrows
                  ltac:(lia)) as Hgen.
    pose proof Hrows as Hrows'. rewrite bucket_sequence_suffixes in Hrows'.
    destruct (create_appends db0 service_type mmyy Hempty rows (suffixes k) Hrows'
                call (format_03d (Z.of_nat (S k))) Hcall Hgen) as [rid [row [Hcreate Hrow]]].
    { apply suffix_fresh; [lia | lia | apply suffix_py_int; lia]. }
    destruct call as [[data today] now]. cbn [fst snd] in Hcreate.
    cbn [create_many]. rewrite Hcreate. cbn [bind snd].
    rewrite <- app_assoc.
    destruct (IH (rows ++ [row]) (S k)) as [rows' [Hmany Hids]].
    + rewrite map_app, Hrows. cbn [map]. rewrite Hrow.
      unfold bucket_sequence. rewrite seq_S, !map_app. reflexivity.
    + exact Hrest.
    + lia.
    + exists rows'. split; [exact Hmany|].
      rewrite Hids. cbn [length]. do 2 f_equal. lia.
Qed.

Lemma bucket_sequence_NoDup : forall service_type mmyy n,
  (n <= 999)%nat -> NoDup (bucket_sequence service_type mmyy n).
Proof.
  intros service_type mmyy n Hn. unfold bucket_sequence.
  apply NoDup_map_NoDup_ForallPairs; [|apply seq_NoDup].
  intros i j Hi Hj Heq. apply in_seq in Hi, Hj.
  apply string_app_inv_head in Heq.
  assert (H : Return (Z.of_nat i) = Return (A := Z) (Z.of_nat j))
    by (rewrite <- (suffix_py_int (Z.of_nat i)), <- (suffix_py_int (Z.of_nat j)) by lia;
        rewrite Heq; reflexivity).
  injection H as H. lia.
Qed.

Lemma get_service_slug_table : forall s slug,
  In (s, slug) service_slugs -> get_service_slug s = slug.
Proof.
  intros s slug Hin. unfold service_slugs in Hin. cbn [In] in Hin.
  repeat (destruct Hin as [Hin|Hin]; [injection Hin as <- <-; reflexivity|]).
  contradiction.
Qed.

Lemma get_service_slug_fallback : forall s,
  (forall slug, ~ In (s, slug) service_slugs) -> get_service_slug s = "OT".
Proof.
  intros s Hs. unfold get_service_slug, service_slugs in *. cbn [dict_get].
  repeat match goal with
  | |- context [String.eqb ?a s] =>
      destruct (String.eqb_spec a s) as [<-|_];
      [exfalso; eapply Hs; cbn [In]; tauto|]
  end.
  reflexivity.
Qed.

(** C5, as the specification states it, fails beyond 999 requests: with an
    empty table, the thousandth 'Collocation' request of month 03/25
    receives the four-digit suffix 1000, and the next creation generates
    that same id again, which the UNIQUE constraint rejects. *)
Lemma create_many_wraps_after_999 :
  (exists db,
      create_many [] (repeat (sample_create "Collocation") 1000) "0325" = Return db
      /\ exists r, In r db /\ custom_id r = Some "GBB_SDA_0325_CS_1000")
  /\ create_many [] (repeat (sample_create "Collocation") 1001) "0325"
     = Raise "IntegrityError".
Proof.
  assert (Hempty : forall c, ~ bucket_id [] "Collocation" "0325" c)
    by (intros c [[r [[] _]] _]).
  assert (Hst : forall n, Forall (fun call => call_service_type call = "Collocation")
                            (repeat (sample_create "Collocation") n))
    by (intros n; apply Forall_forall; intros x Hx; apply repeat_spec in Hx;
        subst x; reflexivity).
  destruct (create_many_sequence [] "Collocation" "0325" Hempty
              (repeat (sample_create "Collocation") 999) [] 0 eq_refl (Hst _))
    as [rows [Hmany Hrows]].
  { rewrite repeat_length. lia. }
  rewrite repeat_length in Hrows. cbn [Nat.add app] in Hmany, Hrows.
  pose proof Hrows as Hsfx. rewrite bucket_sequence_suffixes in Hsfx.
  (* the thousandth creation *)
  pose proof (generate_custom_id_sequence [] "Collocation" "0325" rows 999 Hempty Hrows
                (Nat.le_refl _)) as Hgen.
  change (format_03d (Z.of_nat 1000)) with "1000" in Hgen.
  destruct (create_appends [] "Collocation" "0325" Hempty rows (suffixes 999) Hsfx
              (sample_create "Collocation") "1000" eq_refl Hgen)
    as [rid [row [Hcreate Hrow]]].
  { intros Hin. apply In_suffixes in Hin. destruct Hin as [j [Hj Heq]].
    assert (H : py_int "1000" = Return j) by (rewrite Heq; apply suffix_py_int; lia).
    vm_compute in H. injection H as H. lia. }
  cbn [app] in Hcreate.
  assert (H1000 : create_many [] (repeat (sample_create "Collocation") 1000) "0325"
                  = Return (rows ++ [row])).
  { change 1000%nat with (999 + 1)%nat. rewrite repeat_app, create_many_app, Hmany.
    cbn [bind repeat create_many]. unfold sample_create at 1.
    unfold sample_create in Hcreate. cbn [fst snd] in Hcreate.
    rewrite Hcreate. reflexivity. }
  split.
  - exists (rows ++ [row]). split; [exact H1000|].
    exists row. split; [apply in_or_app; right; left; reflexivity | exact Hrow].
  - (* the next creation *)
    assert (Hsfx' : map custom_id (rows ++ [row])
                    = map (fun s => Some (id_prefix "Collocation" "0325" ++ s)%string)
                        (suffixes 999 ++ ["1000"])).
    { rewrite !map_app, Hsfx. cbn [map]. rewrite Hrow. reflexivity. }
    pose proof (generate_custom_id_next [] "Collocation" "0325" Hempty (rows ++ [row])
                  (suffixes 999 ++ ["1000"]) Hsfx' "999" 999) as Hgen'.
    change (format_03d (999 + 1)) with "1000" in Hgen'.
    assert (Hcreate' :
      create ([] ++ rows ++ [row]) (fst (fst (sample_create "Collocation"))) "0325"
        (snd (fst (sample_create "Collocation"))) (snd (sample_create "Collocation"))
      = Raise "IntegrityError").
    { apply (create_rejects [] "Collocation" "0325" Hempty (rows ++ [row])
               (suffixes 999 ++ ["1000"]) Hsfx' (sample_create "Collocation") "1000" eq_refl).
      - apply Hgen'.
        + apply in_or_app. left. apply In_suffixes. exists 999. split; [lia | reflexivity].
        + intros s Hs. apply in_app_or in Hs. destruct Hs as [Hs|[<-|[]]].
          * apply In_suffixes in Hs. destruct Hs as [j [Hj ->]].
            change "999" with (format_03d 999). apply suffix_leb; lia.
          * reflexivity.
        + reflexivity.
      - apply in_or_app. right. left. reflexivity. }
    change 1001%nat with (1000 + 1)%nat. rewrite repeat_app, create_many_app, H1000.
    cbn [bind repeat create_many]. unfold sample_create at 1.
    unfold sample_create in Hcreate'. cbn [fst snd app] in Hcreate'.
    rewrite Hcreate'. reflexivity.
Qed.

(** C5, amended. For a fixed service type and month whose bucket holds no
    id yet, N successive creations with N at most 999 succeed and file the
    requests under N distinct ids GBB_SDA_MMYY_SLUG_NNN, in order, where NNN
    is the zero-padded three-digit sequence number running from 001 up to
    N; SLUG is looked up in the table of 18 service types, any other
    service type getting the fallback slug OT; and the first 'Collocation'
    request of month 03/25 receives GBB_SDA_0325_CS_001. *)
Theorem create_many_sequence_ids :
  forall (db : store) (service_type mmyy : string)
         (calls : list (create_data * date * timestamp)),
    (forall c, ~ bucket_id db service_type mmyy c) ->
    Forall (fun call => call_service_type call = service_type) calls ->
    (length calls <= 999)%nat ->
    exists rows,
      create_many db calls mmyy = Return (db ++ rows)
      /\ map custom_id rows = map Some (bucket_sequence service_type mmyy (length calls))
      /\ NoDup (bucket_sequence service_type mmyy (length calls))
      /\ (forall k, 1 <= k <= Z.of_nat (length calls) ->
            String.length (format_03d k) = 3%nat
            /\ forallb is_digit (chars (format_03d k)) = true
            /\ py_int (format_03d k) = Return k)
      /\ format_03d 1 = "001"
      /\ id_prefix service_type mmyy
         = ("GBB_SDA_" ++ mmyy ++ "_" ++ get_service_slug service_type ++ "_")%string
      /\ length service_slugs = 18%nat
      /\ (forall s slug, In (s, slug) service_slugs -> get_service_slug s = slug)
      /\ (forall s, (forall slug, ~ In (s, slug) service_slugs) ->
                    get_service_slug s = "OT")
      /\ (forall db1, (forall c, ~ bucket_id db1 "Collocation" "0325" c) ->
            generate_custom_id db1 "Collocation" "0325" = Return "GBB_SDA_0325_CS_001").
Proof.
  intros db service_type mmyy calls Hempty Hst Hlen.
  destruct (create_many_sequence db service_type mmyy Hempty calls [] 0 eq_refl Hst Hlen)
    as [rows [Hmany Hrows]].
  rewrite app_nil_r in Hmany. cbn [Nat.add] in Hrows.
  exists rows. split; [exact Hmany|]. split; [exact Hrows|].
  split; [apply bucket_sequence_NoDup, Hlen|].
  split.
  { intros k Hk. destruct (suffix_three_digits k) as [H3 Hd]; [lia|].
    split; [exact H3|]. split; [exact Hd | apply suffix_py_int; lia]. }
  split; [reflexivity|]. split; [reflexivity|]. split; [reflexivity|].
  split; [apply get_service_slug_table|].
  split; [apply get_service_slug_fallback|].
  intros db1 Hempty1.
  pose proof (generate_custom_id_sequence db1 "Collocation" "0325" [] 0 Hempty1 eq_refl
                (Nat.le_0_l _)) as H.
  rewrite app_nil_r in H. exact H.
Qed.

(** Two 'Collocation' requests created in month 03/25 on an empty table. *)
Lemma create_many_sequence_ids_witness :
  exists rows,
    create_many [] [sample_create "Collocation"; sample_create "Collocation"] "0325"
    = Return ([] ++ rows)
    /\ map custom_id rows = map Some (bucket_sequence "Collocation" "0325" 2)
    /\ NoDup (bucket_sequence "Collocation" "0325" 2)
    /\ (forall k, 1 <= k <= Z.of_nat 2 ->
          String.length (format_03d k) = 3%nat
          /\ forallb is_digit (chars (format_03d k)) = true
          /\ py_int (format_03d k) = Return k)
    /\ format_03d 1 = "001"
    /\ id_prefix "Collocation" "0325"
       = ("GBB_SDA_" ++ "0325" ++ "_" ++ get_service_slug "Collocation" ++ "_")%string
    /\ length service_slugs = 18%nat
    /\ (forall s slug, In (s, slug) service_slugs -> get_service_slug s = slug)
    /\ (forall s, (forall slug, ~ In (s, slug) service_slugs) ->
                  get_service_slug s = "OT")
    /\ (forall db1, (forall c, ~ bucket_id db1 "Collocation" "0325" c) ->
          generate_custom_id db1 "Collocation" "0325" = Return "GBB_SDA_0325_CS_001").
Proof.
  apply (create_many_sequence_ids [] "Collocation" "0325"
           [sample_create "Collocation"; sample_create "Collocation"]).
  - intros c [[r [[] _]] _].
  - repeat constructor.
  - cbn [length]. lia.
Defined.

(* ================================================================= *)
(** * Further properties of the code *)

(* ----------------------------------------------------------------- *)
(** ** Laws of the working-day count *)













(* ----------------------------------------------------------------- *)
(** ** The periods of the weekly and monthly reports *)


Lemma _days_before_year_succ : forall year,
  _days_before_year (year + 1)
  = _days_before_year year + 365 + (if _is_leap year then 1 else 0).
Proof.
  intros year. unfold _days_before_year, _is_leap. cbv zeta.
  replace (year + 1 - 1) with (year - 1 + 1) by lia.
  destruct (year mod 4 =? 0) eqn:H4; destruct (year mod 100 =? 0) eqn:H100;
    destruct (year mod 400 =? 0) eqn:H400; cbn [andb orb negb];
    rewrite ?Z.eqb_eq, ?Z.eqb_neq in *;
    Z.div_mod_to_equations; lia.
Qed.

Lemma month_end_next_start : forall year month,
  1 <= month <= 12 ->
  _ymd2ord year month (_days_in_month year month) + 1 = next_month_start year month
  /\ 28 <= _days_in_month year month <= 31.
Proof.
  intros year month Hm. unfold next_month_start.
  assert (Hc : month = 1 \/ month = 2 \/ month = 3 \/ month = 4 \/ month = 5
               \/ month = 6 \/ month = 7 \/ month = 8 \/ month = 9 \/ month = 10
               \/ month = 11 \/ month = 12) by lia.
  unfold _ymd2ord. rewrite _days_before_year_succ.
  unfold _days_in_month, _days_before_month.
  generalize (_days_before_year year) as dby. generalize (_is_leap year) as leap.
  generalize (_is_leap (year + 1)) as leap'. intros leap' leap dby.
  destruct Hc as [->|[->|[->|[->|[->|[->|[->|[->|[->|[->|[->| ->]]]]]]]]]]];
    destruct leap;
    cbn [Z.add Pos.add Pos.succ Pos.add_carry];
    cbv [nth Z.to_nat Pos.to_nat Pos.iter_op Nat.add Init.Nat.add _DAYS_IN_MONTH
         _DAYS_BEFORE_MONTH Z.eqb Pos.eqb Z.ltb Z.compare Pos.compare Pos.compare_cont
         andb];
    lia.
Qed.

(** X5. For a month from 1 to 12, [get_monthly_report] covers the period
    from the first day of the month to the day before the first day of the
    next month (of the next year after December), 28 to 31 days long.  For
    any other month number it raises [IllegalMonthError], whatever the table
    holds. *)
Theorem get_monthly_report_period :
  forall (db : store) (year month : Z),
    (1 <= month <= 12 ->
       exists first last : date,
         get_monthly_report db year month = Return (period_report db first last)
         /\ first = _ymd2ord year month 1
         /\ last + 1 = next_month_start year month
         /\ 28 <= last - first + 1 <= 31)
    /\ (month < 1 \/ 12 < month ->
          get_monthly_report db year month = Raise "IllegalMonthError").
Proof.
  intros db year month. unfold get_monthly_report, monthrange_last_day. split.
  - intros Hm.
    replace ((1 <=? month) && (month <=? 12)) with true
      by (symmetry; apply andb_true_iff; rewrite !Z.leb_le; lia).
    cbn [bind].
    destruct (month_end_next_start year month Hm) as [Hnext Hlen].
    do 2 eexists. split; [reflexivity|]. split; [reflexivity|]. split; [exact Hnext|].
    unfold _ymd2ord. lia.
  - intros Hm.
    replace ((1 <=? month) && (month <=? 12)) with false; [reflexivity|].
    symmetry. apply andb_false_iff. rewrite !Z.leb_gt. lia.
Qed.

(** December 2024, which ends the day before 2025-01-01. *)
Lemma get_monthly_report_period_witness :
  exists first last : date,
    get_monthly_report sample_store 2024 12 = Return (period_report sample_store first last)
    /\ first = _ymd2ord 2024 12 1
    /\ last + 1 = next_month_start 2024 12
    /\ 28 <= last - first + 1 <= 31.
Proof.
  apply (proj1 (get_monthly_report_period sample_store 2024 12)). lia.
Defined.

(* ----------------------------------------------------------------- *)
(** ** The reports and the status breakdown the renderers derive *)

Lemma dict_get_set {V : Type} : forall (d : list (string * V)) k v k' (default : V),
  dict_get (dict_set d k v) k' default
  = if String.eqb k k' then v else dict_get d k' default.
Proof.
  induction d as [|[k0 x] d IH]; intros k v k' default; cbn [dict_set dict_get].
  - reflexivity.
  - destruct (String.eqb_spec k0 k) as [->|Hne]; cbn [dict_get].
    + destruct (String.eqb k k'); reflexivity.
    + rewrite IH. destruct (String.eqb_spec k k') as [->|Hne'].
      * destruct (String.eqb_spec k0 k'); [contradiction|reflexivity].
      * reflexivity.
Qed.

Lemma count_cons {A : Type} (f : A -> bool) : forall x l,
  count f (x :: l) = (if f x then 1 else 0) + count f l.
Proof.
  intros x l. unfold count. cbn [filter].
  destruct (f x); cbn [length]; lia.
Qed.

Lemma count_nonneg {A : Type} (f : A -> bool) : forall l, 0 <= count f l.
Proof. intros l. unfold count. lia. Qed.

(** The invariant of the loop that fills [status_counts]. *)
Lemma status_counts_loop : forall (requests : list request) d s,
  dict_get
    (fold_left (fun status_counts req =>
                  let status := status req in
                  dict_set status_counts status (dict_get status_counts status 0 + 1))
               requests d) s 0
  = dict_get d s 0 + count (fun r => String.eqb (status r) s) requests.
Proof.
  induction requests as [|r requests IH]; intros d s; cbn [fold_left].
  - unfold count. cbn. lia.
  - rewrite IH. cbv zeta. rewrite dict_get_set, count_cons.
    destruct (String.eqb_spec (status r) s) as [->|Hne]; lia.
Qed.

Lemma status_counts_get : forall requests s,
  dict_get (status_counts requests) s 0
  = count (fun r => String.eqb (status r) s) requests.
Proof.
  intros requests s. unfold status_counts. rewrite status_counts_loop. reflexivity.
Qed.

Lemma count_app {A : Type} (f : A -> bool) : forall l1 l2,
  count f (l1 ++ l2) = count f l1 + count f l2.
Proof.
  intros l1 l2. unfold count. rewrite filter_app, length_app. lia.
Qed.

Lemma count_perm {A : Type} (f : A -> bool) : forall l l',
  Permutation l l' -> count f l = count f l'.
Proof.
  intros l l' Hp. induction Hp.
  - reflexivity.
  - rewrite !count_cons. lia.
  - rewrite !count_cons. lia.
  - lia.
Qed.

Lemma count_filter {A : Type} (f g : A -> bool) : forall l,
  count f (filter g l) = count (fun x => g x && f x) l.
Proof.
  induction l as [|x l IH]; [reflexivity|]. cbn [filter].
  destruct (g x) eqn:Hg; rewrite ?count_cons, IH, ?Hg; cbn [andb]; lia.
Qed.

Lemma count_ext {A : Type} (f g : A -> bool) : forall l,
  (forall x, In x l -> f x = g x) -> count f l = count g l.
Proof.
  induction l as [|x l IH]; intros H; [reflexivity|].
  rewrite !count_cons, IH, (H x) by (intros; try apply H; cbn; auto). reflexivity.
Qed.

(** Counting one status among the rows of a report. *)
Lemma period_report_status_count : forall db first last s,
  count (fun r => String.eqb (status r) s) (rp_requests (period_report db first last))
  = if String.eqb s "Closed Request"
    then rp_completed (period_report db first last)
    else count (fun r => String.eqb (status r) s) db.
Proof.
  intros db first last s. unfold period_report. cbn [rp_requests rp_completed].
  rewrite (count_perm _ _ _ (sort_by_perm _ _)), count_filter.
  destruct (String.eqb_spec s "Closed Request") as [->|Hne]; apply count_ext; intros r _.
  - unfold is_closed. destruct (String.eqb (status r) "Closed Request");
      cbn [negb orb andb]; [rewrite andb_true_r|rewrite andb_false_r]; reflexivity.
  - unfold is_closed. destruct (String.eqb_spec (status r) s) as [->|Hs].
    + destruct (String.eqb_spec s "Closed Request"); [contradiction|]. reflexivity.
    + apply andb_false_r.
Qed.

Lemma report_of_period : forall db rep,
  report_of db rep -> exists first last, rep = period_report db first last.
Proof.
  intros db rep [[d H]|[[y [w H]]|[y [m H]]]].
  - unfold get_daily_report in H. injection H as <-. eauto.
  - unfold get_weekly_report in H. injection H as <-. eauto.
  - unfold get_monthly_report in H.
    destruct (monthrange_last_day y m) as [last_day|e]; cbn [bind] in H; [|discriminate H].
    injection H as <-. eauto.
Qed.

(** X6. In the summary the renderers draw from a daily, weekly or monthly
    report, the 'Closed Requests' row of the status breakdown, counted from
    the request list, equals the report's 'Completed' figure and the 'In
    Progress' row equals its 'In Progress' figure; the three pending rows are
    the numbers of rows of the whole table with that status. *)
Theorem report_breakdown_matches_metrics :
  forall (db : store) (rep : report),
    report_of db rep ->
    status_breakdown (rp_requests rep)
    = [ ("In Progress", rp_in_progress rep);
        ("Pending with Presales",
           count (fun r => String.eqb (status r) "Pending with Presales") db);
        ("Pending Review", count (fun r => String.eqb (status r) "Pending review") db);
        ("Pending Approval", count (fun r => String.eqb (status r) "Pending approval") db);
        ("Closed Requests", rp_completed rep) ].
Proof.
  intros db rep Hrep. destruct (report_of_period _ _ Hrep) as [first [last ->]].
  unfold status_breakdown. rewrite !status_counts_get, !period_report_status_count.
  reflexivity.
Qed.

(** The weekly report of week 7 of 2024 over the sample table. *)
Lemma report_breakdown_matches_metrics_witness :
  status_breakdown (rp_requests (period_report sample_store (week_start 2024 7)
                                   (week_end 2024 7)))
  = [ ("In Progress",
         rp_in_progress (period_report sample_store (week_start 2024 7) (week_end 2024 7)));
      ("Pending with Presales",
         count (fun r => String.eqb (status r) "Pending with Presales") sample_store);
      ("Pending Review",
         count (fun r => String.eqb (status r) "Pending review") sample_store);
      ("Pending Approval",
         count (fun r => String.eqb (status r) "Pending approval") sample_store);
      ("Closed Requests",
         rp_completed (period_report sample_store (week_start 2024 7) (week_end 2024 7))) ].
Proof.
  apply (report_breakdown_matches_metrics sample_store).
  right. left. exists 2024, 7. reflexivity.
Defined.

Lemma count_known_statuses : forall (l : list request),
  count (fun r => String.eqb (status r) "in_progress") l
  + (count (fun r => String.eqb (status r) "Pending with Presales") l
     + count (fun r => String.eqb (status r) "Pending review") l
     + count (fun r => String.eqb (status r) "Pending approval") l)
  + count (fun r => String.eqb (status r) "Closed Request") l
  = count (fun r => existsb (String.eqb (status r)) known_statuses) l.
Proof.
  induction l as [|r l IH]; [reflexivity|].
  rewrite !count_cons. rewrite <- IH. clear IH.
  cbn [existsb known_statuses].
  destruct (String.eqb_spec (status r) "in_progress") as [He|H1];
    [rewrite ?He; cbn [String.eqb Ascii.eqb Bool.eqb andb orb]; lia|].
  destruct (String.eqb_spec (status r) "Pending with Presales") as [He|H2];
    [rewrite ?He; cbn [String.eqb Ascii.eqb Bool.eqb andb orb]; lia|].
  destruct (String.eqb_spec (status r) "Pending review") as [He|H3];
    [rewrite ?He; cbn [String.eqb Ascii.eqb Bool.eqb andb orb]; lia|].
  destruct (String.eqb_spec (status r) "Pending approval") as [He|H4];
    [rewrite ?He; cbn [String.eqb Ascii.eqb Bool.eqb andb orb]; lia|].
  destruct (String.eqb_spec (status r) "Closed Request") as [He|H5];
    [rewrite ?He; cbn [String.eqb Ascii.eqb Bool.eqb andb orb]; lia|].
  cbn [orb]. lia.
Qed.

Lemma count_le_length {A : Type} (f : A -> bool) : forall l,
  count f l <= Z.of_nat (length l).
Proof. intros l. unfold count. apply inj_le. apply filter_length_le. Qed.

Lemma count_all_iff {A : Type} (f : A -> bool) : forall l,
  count f l = Z.of_nat (length l) <-> Forall (fun x => f x = true) l.
Proof.
  induction l as [|x l IH]; [split; [constructor|reflexivity]|].
  rewrite count_cons. cbn [length]. rewrite Nat2Z.inj_succ.
  pose proof (count_le_length f l) as Hle.
  destruct (f x) eqn:Hx.
  - split.
    + intros H. constructor; [exact Hx|]. apply IH. lia.
    + intros H. apply Forall_cons_iff in H as [_ H]. apply IH in H. lia.
  - split; [lia|]. intros H. apply Forall_cons_iff in H as [H _]. congruence.
Qed.

Lemma known_status_In : forall s,
  existsb (String.eqb s) known_statuses = true <-> In s known_statuses.
Proof.
  intros s. rewrite existsb_exists. split.
  - intros [x [Hin Heq]]. apply String.eqb_eq in Heq. subst x. exact Hin.
  - intros Hin. exists s. split; [exact Hin|apply String.eqb_refl].
Qed.

(** X7. The dictionary the renderers fill in their loop holds, for every
    status, the number of requests of the list with that status (0 under
    [get] for a status that does not occur), and the five rows of the
    breakdown add up to the length of the list exactly when every request
    has one of the five known statuses. *)
Theorem status_counts_spec :
  forall (requests : list request),
    (forall s, dict_get (status_counts requests) s 0
               = count (fun r => String.eqb (status r) s) requests)
    /\ fold_right Z.add 0 (map snd (status_breakdown requests))
       <= Z.of_nat (length requests)
    /\ (fold_right Z.add 0 (map snd (status_breakdown requests))
        = Z.of_nat (length requests)
        <-> Forall (fun r => In (status r) known_statuses) requests).
Proof.
  intros requests.
  assert (Hsum : fold_right Z.add 0 (map snd (status_breakdown requests))
                 = count (fun r => existsb (String.eqb (status r)) known_statuses) requests).
  { unfold status_breakdown. rewrite !status_counts_get. cbn [map snd fold_right].
    rewrite <- count_known_statuses. lia. }
  split; [apply status_counts_get|]. rewrite Hsum. split; [apply count_le_length|].
  rewrite count_all_iff. split; intros H; eapply Forall_impl; try exact H;
    intros r Hr; apply known_status_In; exact Hr.
Qed.

(** A stable sort on an integer key leaves the rows of one key in the order
    they had. *)
Lemma sort_by_key_filter {A : Type} (key : A -> Z) : forall (k : Z) (l : list A),
  filter (fun x => key x =? k) (sort_by (fun x y => key x <=? key y) l)
  = filter (fun x => key x =? k) l.
Proof.
  intros k l. induction l as [|x l IH]; [reflexivity|].
  cbn [sort_by filter]. rewrite <- IH.
  generalize (sort_by (fun x y => key x <=? key y) l) as s.
  induction s as [|y s IHs]; cbn [insert_sorted filter]; [reflexivity|].
  destruct (key x <=? key y) eqn:Hle; cbn [filter]; [reflexivity|].
  rewrite IHs. apply Z.leb_gt in Hle.
  destruct (key x =? k) eqn:Hx; [|reflexivity].
  apply Z.eqb_eq in Hx.
  replace (key y =? k) with false by (symmetry; apply Z.eqb_neq; lia).
  reflexivity.
Qed.

Lemma filter_filter_absorb {A : Type} (f g : A -> bool) : forall l,
  (forall x, In x l -> f x = true -> g x = true) ->
  filter f (filter g l) = filter f l.
Proof.
  induction l as [|x l IH]; intros H; [reflexivity|]. cbn [filter].
  assert (IH' : filter f (filter g l) = filter f l)
    by (apply IH; intros y Hy; apply H; right; exact Hy).
  destruct (g x) eqn:Hg; cbn [filter].
  - rewrite IH'. reflexivity.
  - destruct (f x) eqn:Hf; [|exact IH'].
    rewrite (H x (or_introl eq_refl) Hf) in Hg. discriminate Hg.
Qed.

Lemma get_status_sort_order_closed : forall s,
  get_status_sort_order s = 1 <-> s = "Closed Request".
Proof.
  intros s. unfold get_status_sort_order. cbn [dict_get].
  destruct (String.eqb_spec "Closed Request" s) as [<-|H1]; [tauto|].
  repeat match goal with
  | |- context [String.eqb ?a s] => destruct (String.eqb a s)
  end; split; intros H; try discriminate H; congruence.
Qed.

(** X8. Within the request list of a daily, weekly or monthly report the
    rows of one priority keep the order of the table: the rows of any
    priority other than that of 'Closed Request' are all the table's rows of
    that priority, in table order; so are the rows of any status other than
    'Closed Request'. *)
Theorem report_keeps_table_order :
  forall (db : store) (rep : report),
    report_of db rep ->
    (forall k, k <> 1 ->
       filter (fun r => get_status_sort_order (status r) =? k) (rp_requests rep)
       = filter (fun r => get_status_sort_order (status r) =? k) db)
    /\ (forall s, s <> "Closed Request" ->
          filter (fun r => String.eqb (status r) s) (rp_requests rep)
          = filter (fun r => String.eqb (status r) s) db).
Proof.
  intros db rep Hrep. destruct (report_of_period _ _ Hrep) as [first [last ->]].
  unfold period_report. cbn [rp_requests].
  assert (Hk : forall k, k <> 1 ->
    filter (fun r => get_status_sort_order (status r) =? k)
      (sort_by (fun x y => get_status_sort_order (status x) <=? get_status_sort_order (status y))
         (filter (fun r => negb (is_closed r) || sent_out_between first last r) db))
    = filter (fun r => get_status_sort_order (status r) =? k) db).
  { intros k Hk.
    rewrite (sort_by_key_filter (fun r => get_status_sort_order (status r))).
    apply filter_filter_absorb. intros r _ Hr. apply Z.eqb_eq in Hr.
    destruct (is_closed r) eqn:Hc; [|reflexivity].
    apply is_closed_true in Hc. apply get_status_sort_order_closed in Hc. lia. }
  split; [exact Hk|]. intros s Hs.
  assert (Hne : get_status_sort_order s <> 1)
    by (intros H; apply get_status_sort_order_closed in H; contradiction).
  specialize (Hk _ Hne).
  apply (f_equal (filter (fun r => String.eqb (status r) s))) in Hk.
  rewrite !filter_filter_absorb in Hk; [exact Hk| |];
    intros r _ Hr; apply String.eqb_eq in Hr; rewrite Hr; apply Z.eqb_refl.
Qed.

(** The daily report of 2024-02-14 over the sample table. *)
Lemma report_keeps_table_order_witness :
  (forall k, k <> 1 ->
     filter (fun r => get_status_sort_order (status r) =? k)
       (rp_requests (period_report sample_store (_ymd2ord 2024 2 14) (_ymd2ord 2024 2 14)))
     = filter (fun r => get_status_sort_order (status r) =? k) sample_store)
  /\ (forall s, s <> "Closed Request" ->
        filter (fun r => String.eqb (status r) s)
          (rp_requests (period_report sample_store (_ymd2ord 2024 2 14) (_ymd2ord 2024 2 14)))
        = filter (fun r => String.eqb (status r) s) sample_store).
Proof.
  apply (report_keeps_table_order sample_store).
  left. exists (_ymd2ord 2024 2 14). reflexivity.
Defined.

(* ----------------------------------------------------------------- *)
(** ** The dashboard figures *)

(** X9. The figures of [get_stats] fit together: the total is the number
    of rows; in-progress, pending and closed together never exceed the total
    and reach it exactly when every row has one of the five known statuses;
    the rows closed in the last seven days are among the closed ones; and
    the overdue figure is at most the number of rows that have a target. *)
Theorem get_stats_buckets :
  forall (db : store) (today : date),
    exists st : stats,
      get_stats db today = Return st
      /\ st_total st = Z.of_nat (length db)
      /\ 0 <= st_in_progress st /\ 0 <= st_pending st /\ 0 <= st_closed st
      /\ st_in_progress st + st_pending st + st_closed st <= st_total st
      /\ (st_in_progress st + st_pending st + st_closed st = st_total st
          <-> Forall (fun r => In (status r) known_statuses) db)
      /\ 0 <= st_closed_week st <= st_closed st
      /\ 0 <= st_overdue st <= count (fun r => is_not_null (target_days r)) db.
Proof.
  intros db today. unfold get_stats. rewrite for_each_stats_step. cbn [bind].
  eexists. split; [reflexivity|].
  cbn [st_total st_in_progress st_pending st_closed st_closed_week st_overdue].
  pose proof (count_known_statuses db) as Hsum.
  pose proof (count_le_length (fun r => existsb (String.eqb (status r)) known_statuses) db)
    as Hle.
  pose proof (count_all_iff (fun r => existsb (String.eqb (status r)) known_statuses) db)
    as Hall.
  pose proof (count_nonneg (fun r => String.eqb (status r) "in_progress") db).
  pose proof (count_nonneg (fun r => String.eqb (status r) "Pending with Presales") db).
  pose proof (count_nonneg (fun r => String.eqb (status r) "Pending review") db).
  pose proof (count_nonneg (fun r => String.eqb (status r) "Pending approval") db).
  pose proof (count_nonneg (fun r => String.eqb (status r) "Closed Request") db).
  split; [reflexivity|]. split; [lia|]. split; [lia|]. split; [lia|]. split; [lia|].
  split; [|split].
  - rewrite Hsum, Hall. split; intros H'; eapply Forall_impl; try exact H';
      intros r Hr; apply known_status_In; exact Hr.
  - split; [apply count_nonneg|].
    assert (Hsub : count (fun r => is_closed r
                            && match sent_out_date r with
                               | Some d => today - 7 <=? d
                               | None => false
                               end) db
                   = count (fun r => match sent_out_date r with
                                     | Some d => today - 7 <=? d
                                     | None => false
                                     end) (filter is_closed db))
      by (symmetry; apply count_filter).
    rewrite Hsub. apply count_le_length.
  - rewrite Z.add_0_l. split; [apply count_nonneg|].
    apply count_le_length.
Qed.

(* ----------------------------------------------------------------- *)
(** ** [migrate_status_values] *)

Lemma count_map {A B : Type} (f : A -> B) (p : B -> bool) : forall l,
  count p (map f l) = count (fun x => p (f x)) l.
Proof.
  induction l as [|x l IH]; [reflexivity|].
  cbn [map]. rewrite !count_cons, IH. reflexivity.
Qed.

Lemma set_status_same : forall r, set_status r (status r) = r.
Proof. intros []. reflexivity. Qed.

(** The two UPDATE statements together, in closed form. *)
Lemma migrate_status_values_returns : forall db,
  migrate_status_values db
  = Return (count (fun r => old_status (status r)) db,
            map (fun r => set_status r (migrated_status (status r))) db).
Proof.
  intros db. unfold migrate_status_values, status_updates, update_status.
  cbn [for_each bind]. f_equal. f_equal.
  - rewrite count_map, Z.add_0_l.
    induction db as [|r db IH]; [reflexivity|].
    rewrite !count_cons. unfold old_status at 1.
    destruct (String.eqb_spec (status r) "Pending with jane") as [He|Hne].
    + rewrite He. cbn [status set_status String.eqb Ascii.eqb Bool.eqb andb orb]. lia.
    + cbn [orb]. destruct (String.eqb (status r) "Pending Review with mahmud"); lia.
  - rewrite map_map. apply map_ext. intros r. unfold migrated_status.
    destruct (String.eqb_spec (status r) "Pending with jane") as [He|Hne].
    + reflexivity.
    + destruct (String.eqb (status r) "Pending Review with mahmud");
        [reflexivity | symmetry; apply set_status_same].
Qed.

Lemma migrated_status_not_old : forall s, old_status (migrated_status s) = false.
Proof.
  intros s. unfold migrated_status, old_status.
  destruct (String.eqb_spec s "Pending with jane") as [He|Hne]; [reflexivity|].
  destruct (String.eqb_spec s "Pending Review with mahmud") as [He'|Hne']; [reflexivity|].
  destruct (String.eqb_spec s "Pending with jane"); [contradiction|].
  destruct (String.eqb_spec s "Pending Review with mahmud"); [contradiction|].
  reflexivity.
Qed.

Lemma migrated_status_keeps : forall s, old_status s = false -> migrated_status s = s.
Proof.
  intros s H. unfold old_status in H. apply orb_false_iff in H as [H1 H2].
  unfold migrated_status. rewrite H1, H2. reflexivity.
Qed.

(** X10. [migrate_status_values] returns the number of rows that had one of
    the two old statuses, 'Pending with jane' and 'Pending Review with
    mahmud'.  Afterwards the first are 'Pending review' and the second
    'Pending approval', no row has an old status, every other row is as it
    was, and no column but the status has changed. *)
Theorem migrate_status_values_spec :
  forall db : store,
    exists db' : store,
      migrate_status_values db = Return (count (fun r => old_status (status r)) db, db')
      /\ db' = map (fun r => set_status r (migrated_status (status r))) db
      /\ Forall (fun r' => old_status (status r') = false) db'
      /\ (forall r, old_status (status r) = false ->
            set_status r (migrated_status (status r)) = r)
      /\ migrated_status "Pending with jane" = "Pending review"
      /\ migrated_status "Pending Review with mahmud" = "Pending approval"
      /\ get_status_sort_order (migrated_status "Pending with jane") = 3
      /\ get_status_sort_order (migrated_status "Pending Review with mahmud") = 4.
Proof.
  intros db. eexists. split; [apply migrate_status_values_returns|].
  split; [reflexivity|]. split; [|split; [|repeat split]].
  - apply Forall_forall. intros r' Hr'. apply in_map_iff in Hr' as [r [<- _]].
    destruct r. apply migrated_status_not_old.
  - intros r Hr. rewrite migrated_status_keeps by exact Hr. apply set_status_same.
Qed.

(** X11. Running the migration a second time updates no row and leaves the
    table as the first run made it. *)
Theorem migrate_status_values_idempotent :
  forall (db db' : store) (n : Z),
    migrate_status_values db = Return (n, db') ->
    migrate_status_values db' = Return (0, db').
Proof.
  intros db db' n H. rewrite migrate_status_values_returns in H.
  injection H as _ <-. rewrite migrate_status_values_returns. f_equal. f_equal.
  - rewrite count_map. unfold count.
    replace (filter _ db) with (@nil request); [reflexivity|].
    symmetry. induction db as [|r db IH]; [reflexivity|]. cbn [filter].
    destruct r. cbn [status set_status]. rewrite migrated_status_not_old. exact IH.
  - rewrite map_map. apply map_ext. intros r. destruct r. cbn [status set_status].
    rewrite (migrated_status_keeps _ (migrated_status_not_old _)). reflexivity.
Qed.

(** The sample table, whose fourth row has an old status. *)
Lemma migrate_status_values_idempotent_witness :
  migrate_status_values
    (map (fun r => set_status r (migrated_status (status r))) sample_store)
  = Return (0, map (fun r => set_status r (migrated_status (status r))) sample_store).
Proof.
  apply (migrate_status_values_idempotent sample_store _ 1). reflexivity.
Defined.

Lemma counted_overdue_set_status : forall today r,
  counted_overdue today (set_status r (migrated_status (status r)))
  = counted_overdue today r.
Proof.
  intros today r. destruct (old_status (status r)) eqn:Hold.
  - unfold counted_overdue, current_duration, is_closed. destruct r.
    cbn [status set_status target_days duration_days date_request_received] in *.
    unfold old_status in Hold. unfold migrated_status.
    destruct (String.eqb_spec status0 "Pending with jane") as [->|H1]; [reflexivity|].
    destruct (String.eqb_spec status0 "Pending Review with mahmud") as [->|H2];
      [reflexivity|discriminate Hold].
  - rewrite migrated_status_keeps by exact Hold. rewrite set_status_same. reflexivity.
Qed.

Lemma migrated_status_row : forall s,
  String.eqb (migrated_status s) "in_progress" = String.eqb s "in_progress"
  /\ String.eqb (migrated_status s) "Pending with Presales"
     = String.eqb s "Pending with Presales"
  /\ String.eqb (migrated_status s) "Closed Request" = String.eqb s "Closed Request"
  /\ (if String.eqb (migrated_status s) "Pending review" then 1 else 0)
     + (if String.eqb (migrated_status s) "Pending approval" then 1 else 0)
     = (if String.eqb s "Pending review" then 1 else 0)
       + (if String.eqb s "Pending approval" then 1 else 0)
       + (if old_status s then 1 else 0).
Proof.
  intros s. unfold migrated_status, old_status.
  destruct (String.eqb_spec s "Pending with jane") as [->|H1];
    [vm_compute; repeat split|].
  destruct (String.eqb_spec s "Pending Review with mahmud") as [->|H2];
    [vm_compute; repeat split|].
  cbn [orb]. repeat split. lia.
Qed.

Lemma migrate_pending_count : forall db : store,
  count (fun r => String.eqb (status r) "Pending review")
    (map (fun r => set_status r (migrated_status (status r))) db)
  + count (fun r => String.eqb (status r) "Pending approval")
      (map (fun r => set_status r (migrated_status (status r))) db)
  = count (fun r => String.eqb (status r) "Pending review") db
    + count (fun r => String.eqb (status r) "Pending approval") db
    + count (fun r => old_status (status r)) db.
Proof.
  induction db as [|r db IH]; [reflexivity|]. cbn [map].
  rewrite !count_cons.
  destruct (migrated_status_row (status r)) as [_ [_ [_ Hrow]]].
  destruct r. cbn [status set_status] in *. lia.
Qed.

(** X12. The migration moves rows into the pending figure of the dashboard
    and changes nothing else there: after it [get_stats] shows the pending
    count raised by the number of rows the migration reports, and the same
    total, in-progress, closed, overdue and closed-this-week figures. *)
Theorem migrate_status_values_stats :
  forall (db db' : store) (n : Z) (today : date),
    migrate_status_values db = Return (n, db') ->
    exists st : stats,
      get_stats db today = Return st
      /\ get_stats db' today
         = Return (mkStats (st_total st) (st_in_progress st) (st_pending st + n)
                     (st_closed st) (st_overdue st) (st_closed_week st)).
Proof.
  intros db db' n today H. rewrite migrate_status_values_returns in H.
  injection H as <- <-. unfold get_stats. rewrite !for_each_stats_step. cbn [bind].
  eexists. split; [reflexivity|].
  cbn [st_total st_in_progress st_pending st_closed st_closed_week st_overdue].
  pose proof (migrate_pending_count db) as Hpending.
  f_equal. f_equal.
  - rewrite length_map. reflexivity.
  - rewrite count_map. apply count_ext. intros r _. destruct r. cbn [status set_status].
    apply migrated_status_row.
  - assert (Hpresales :
      count (fun r => String.eqb (status r) "Pending with Presales")
        (map (fun r => set_status r (migrated_status (status r))) db)
      = count (fun r => String.eqb (status r) "Pending with Presales") db).
    { rewrite count_map. apply count_ext. intros r _. destruct r. cbn [status set_status].
      apply migrated_status_row. }
    lia.
  - rewrite count_map. apply count_ext. intros r _. destruct r. cbn [status set_status].
    apply migrated_status_row.
  - f_equal. rewrite !count_filter, count_map. apply count_ext. intros r _.
    rewrite counted_overdue_set_status. destruct r. reflexivity.
  - rewrite count_map. apply count_ext. intros r _. unfold is_closed.
    destruct r. cbn [status set_status sent_out_date].
    destruct (migrated_status_row status0) as [_ [_ [-> _]]]. reflexivity.
Qed.

(** The sample table on 2024-02-20: one row moves into the pending
    figure. *)
Lemma migrate_status_values_stats_witness :
  exists st : stats,
    get_stats sample_store (_ymd2ord 2024 2 20) = Return st
    /\ get_stats (map (fun r => set_status r (migrated_status (status r))) sample_store)
         (_ymd2ord 2024 2 20)
       = Return (mkStats (st_total st) (st_in_progress st) (st_pending st + 1)
                   (st_closed st) (st_overdue st) (st_closed_week st)).
Proof.
  apply (migrate_status_values_stats sample_store). reflexivity.
Defined.

(* ----------------------------------------------------------------- *)
(** ** [Request.delete], [Request.update] and [Request.create] on the table *)

Lemma filter_nil_iff {A : Type} (f : A -> bool) : forall l,
  filter f l = [] <-> forall x, In x l -> f x = false.
Proof.
  induction l as [|x l IH]; cbn [filter].
  - split; [intros _ y []|reflexivity].
  - destruct (f x) eqn:Hx.
    + split; [discriminate|]. intros H. rewrite (H x (or_introl eq_refl)) in Hx.
      discriminate Hx.
    + rewrite IH. split.
      * intros H y [<-|Hy]; [exact Hx|apply H, Hy].
      * intros H y Hy. apply H. right. exact Hy.
Qed.

Lemma filter_all {A : Type} (f : A -> bool) : forall l,
  (forall x, In x l -> f x = true) -> filter f l = l.
Proof.
  induction l as [|x l IH]; intros H; [reflexivity|]. cbn [filter].
  rewrite (H x (or_introl eq_refl)), IH; [reflexivity|].
  intros y Hy. apply H. right. exact Hy.
Qed.

Lemma get_by_id_None : forall db request_id,
  get_by_id db request_id = None <-> ~ In request_id (map id db).
Proof.
  intros db request_id. unfold get_by_id, fetchone.
  destruct (filter (fun r => id r =? request_id) db) as [|r l] eqn:Hf; cbn [hd_error].
  - split; [|reflexivity]. intros _ Hin. apply in_map_iff in Hin as [r [Hid Hr]].
    pose proof (proj1 (filter_nil_iff _ _) Hf r Hr) as Hne. cbn in Hne.
    apply Z.eqb_neq in Hne. contradiction.
  - split; [discriminate|]. intros Hnot. exfalso. apply Hnot.
    assert (Hr : In r (filter (fun r => id r =? request_id) db))
      by (rewrite Hf; left; reflexivity).
    apply filter_In in Hr as [Hr Hid]. apply Z.eqb_eq in Hid.
    apply in_map_iff. exists r. split; [exact Hid|exact Hr].
Qed.

Lemma rowcount_positive : forall db request_id,
  Nat.ltb 0 (length (filter (fun r => id r =? request_id) db)) = true
  <-> In request_id (map id db).
Proof.
  intros db request_id. pose proof (get_by_id_None db request_id) as Hn.
  unfold get_by_id, fetchone in Hn.
  destruct (filter (fun r => id r =? request_id) db) as [|r l]; cbn [hd_error length] in *.
  - split; [discriminate|]. intros Hin. destruct (proj1 Hn eq_refl Hin).
  - split; [|reflexivity]. intros _.
    destruct (in_dec Z.eq_dec request_id (map id db)) as [Hin|Hnot]; [exact Hin|].
    apply Hn in Hnot. discriminate Hnot.
Qed.

(** X13. [Request.delete] returns [True] exactly when a row has the id.
    Afterwards no row has it, every other id reads as before, a delete of a
    missing id leaves the table as it was, and deleting the same id again
    returns [False]. *)
Theorem delete_spec :
  forall (db : store) (request_id : Z),
    exists (success : bool) (db' : store),
      delete db request_id = Return (success, db')
      /\ (success = true <-> In request_id (map id db))
      /\ get_by_id db' request_id = None
      /\ (forall other, other <> request_id -> get_by_id db' other = get_by_id db other)
      /\ (success = false -> db' = db)
      /\ delete db' request_id = Return (false, db').
Proof.
  intros db request_id. unfold delete.
  set (db' := filter (fun r => negb (id r =? request_id)) db).
  assert (Hgone : filter (fun r => id r =? request_id) db' = []).
  { apply filter_nil_iff. intros r Hr. apply filter_In in Hr as [_ Hr].
    apply negb_true_iff in Hr. exact Hr. }
  do 2 eexists. split; [reflexivity|]. split; [apply rowcount_positive|].
  split; [|split; [|split]].
  - unfold get_by_id. rewrite Hgone. reflexivity.
  - intros other Hne. unfold get_by_id. f_equal. apply filter_filter_absorb.
    intros r _ Hr. apply Z.eqb_eq in Hr. apply negb_true_iff, Z.eqb_neq. lia.
  - intros Hfalse. apply filter_all. intros r Hr. apply negb_true_iff.
    destruct (id r =? request_id) eqn:Hid; [|reflexivity].
    apply Z.eqb_eq in Hid.
    assert (Hin : In request_id (map id db))
      by (apply in_map_iff; exists r; split; [exact Hid|exact Hr]).
    apply rowcount_positive in Hin. congruence.
  - rewrite Hgone. cbn [length Nat.ltb Nat.leb]. f_equal. f_equal.
    apply filter_all. intros r Hr. apply filter_In in Hr as [_ Hr]. exact Hr.
Qed.

Lemma no_fields_spec : forall data, no_fields data = true <-> data = empty_update.
Proof.
  intros data. split; [|intros ->; reflexivity].
  destruct data as [a1 a2 a3 a4 a5 a6 a7 a8 a9 a10 a11 a12 a13 a14 a15].
  destruct a1; [discriminate|]. destruct a2; [discriminate|].
  destruct a3; [discriminate|]. destruct a4; [discriminate|].
  destruct a5; [discriminate|]. destruct a6; [discriminate|].
  destruct a7; [discriminate|]. destruct a8; [discriminate|].
  destruct a9; [discriminate|]. destruct a10; [discriminate|].
  destruct a11; [discriminate|]. destruct a12; [discriminate|].
  destruct a13; [discriminate|]. destruct a14; [discriminate|].
  destruct a15; [discriminate|]. reflexivity.
Qed.

Lemma no_fields_with_sent_out_date : forall data v,
  no_fields (with_sent_out_date data v) = false.
Proof.
  intros data v. destruct (no_fields (with_sent_out_date data v)) eqn:H; [|reflexivity].
  apply no_fields_spec in H. discriminate H.
Qed.

Lemma no_fields_with_duration_days : forall data v,
  no_fields (with_duration_days data v) = false.
Proof.
  intros data v. destruct (no_fields (with_duration_days data v)) eqn:H; [|reflexivity].
  apply no_fields_spec in H. discriminate H.
Qed.

(** What [update] does once the row is found: it raises on the empty dict
    and otherwise rewrites the rows with the id by some dict [data']. *)
Lemma update_found : forall db request_id data today now current_request,
  get_by_id db request_id = Some current_request ->
  (data = empty_update
   /\ update db request_id data today now = Raise "OperationalError")
  \/ (data <> empty_update
      /\ exists data',
           update db request_id data today now
           = Return (true, map (fun r => if id r =? request_id
                                         then apply_update data' now r else r) db)).
Proof.
  intros db request_id data today now current_request Hget.
  assert (Hin : In request_id (map id db)).
  { destruct (in_dec Z.eq_dec request_id (map id db)) as [Hin|Hnot]; [exact Hin|].
    apply get_by_id_None in Hnot. congruence. }
  apply rowcount_positive in Hin.
  unfold update. rewrite Hget, Hin.
  set (data1 := if sets_closed data then _ else data).
  assert (H1 : data1 = data \/ no_fields data1 = false).
  { subst data1. destruct (sets_closed data); [|left; reflexivity].
    destruct (get_sent_out_date data); [left; reflexivity|].
    right. apply no_fields_with_sent_out_date. }
  destruct (u_date_request_received data1) as [received|] eqn:Hrec.
  - rewrite calculate_working_days_returns. cbn [bind].
    rewrite no_fields_with_duration_days. right. split; [|eauto].
    intros ->. destruct H1 as [H1|H1].
    + rewrite H1 in Hrec. discriminate Hrec.
    + subst data1. discriminate H1.
  - cbn [bind]. destruct (no_fields data1) eqn:Hnf.
    + left. destruct H1 as [H1|H1]; [|congruence].
      rewrite H1 in Hnf. apply no_fields_spec in Hnf. split; [exact Hnf|reflexivity].
    + right. split; [|eauto]. intros ->. subst data1. discriminate Hnf.
Qed.

(** X14. Whatever [Request.update] returns, it has touched at most the rows
    with the given id: the flag is [True] exactly when a row has the id, on
    [False] the table is as it was, and row by row the id and the creation
    time are kept, a row with another id is unchanged, and an updated row
    carries the current time as its update time.  (The dict names data
    columns only, as the record of its keys has it.) *)
Theorem update_frame :
  forall (db : store) (request_id : Z) (data : update_data) (today : date)
         (now : timestamp) (success : bool) (db' : store),
    update db request_id data today now = Return (success, db') ->
    (success = true <-> In request_id (map id db))
    /\ (success = false -> db' = db)
    /\ Forall2 (fun r r' =>
                  id r' = id r
                  /\ created_date r' = created_date r
                  /\ (id r <> request_id -> r' = r)
                  /\ (id r = request_id -> updated_date r' = now)) db db'.
Proof.
  intros db request_id data today now success db' H.
  destruct (get_by_id db request_id) as [current_request|] eqn:Hget.
  - assert (Hin : In request_id (map id db)).
    { destruct (in_dec Z.eq_dec request_id (map id db)) as [Hin|Hnot]; [exact Hin|].
      apply get_by_id_None in Hnot. congruence. }
    destruct (update_found db request_id data today now _ Hget)
      as [[_ Hraise]|[_ [data' Hret]]]; [congruence|].
    rewrite Hret in H. injection H as <- <-.
    split; [tauto|]. split; [discriminate|].
    clear. induction db as [|r db IH]; cbn [map]; constructor; [|exact IH].
    destruct (id r =? request_id) eqn:Hid.
    + apply Z.eqb_eq in Hid. repeat split; try reflexivity. intros. contradiction.
    + apply Z.eqb_neq in Hid. repeat split; try reflexivity. intros. contradiction.
  - unfold update in H. rewrite Hget in H. injection H as <- <-.
    apply get_by_id_None in Hget.
    split; [split; [discriminate|contradiction]|]. split; [reflexivity|].
    clear - Hget. induction db as [|r db IH]; constructor.
    + repeat split. intros Hid. exfalso. apply Hget. left. exact Hid.
    + apply IH. intros Hin. apply Hget. right. exact Hin.
Qed.

(** Closing request 2 of the sample table on 2024-02-20. *)
Lemma update_frame_witness :
  (true = true <-> In 2 (map id sample_store))
  /\ (true = false ->
      map (fun r => if id r =? 2
                    then apply_update
                           (with_sent_out_date (status_only "Closed Request")
                              (Some (_ymd2ord 2024 2 20))) 99 r
                    else r) sample_store = sample_store)
  /\ Forall2 (fun r r' =>
                id r' = id r
                /\ created_date r' = created_date r
                /\ (id r <> 2 -> r' = r)
                /\ (id r = 2 -> updated_date r' = 99)) sample_store
       (map (fun r => if id r =? 2
                      then apply_update
                             (with_sent_out_date (status_only "Closed Request")
                                (Some (_ymd2ord 2024 2 20))) 99 r
                      else r) sample_store).
Proof.
  apply (update_frame sample_store 2 (status_only "Closed Request") (_ymd2ord 2024 2 20) 99).
  reflexivity.
Defined.



Lemma next_rowid_fresh : forall (db : store) r, In r db -> id r < next_rowid db.
Proof.
  intros db r. unfold next_rowid. induction db as [|x db IH]; intros Hin; [destruct Hin|].
  cbn [fold_right]. destruct Hin as [->|Hin]; [lia|].
  specialize (IH Hin). lia.
Qed.


(** What a successful [create] has done. *)
Lemma create_returns : forall db data mmyy today now request_id db',
  create db data mmyy today now = Return (request_id, db') ->
  exists c,
    generate_custom_id db (get_or (c_service_type data) "Internet Service") mmyy = Return c
    /\ custom_id_taken db c = false
    /\ request_id = next_rowid db
    /\ db' = db ++ [ mkRequest request_id (Some c)
                       (c_customer_name data) (c_description data)
                       (get_or (c_project_type data) "")
                       (get_or (c_service_type data) "Internet Service")
                       "in_progress" (c_boq_cost data) (c_requester_name data)
                       (c_department data) (c_date_request_received data)
                       (c_target_days data) None
                       (elapsed_working_days (c_date_request_received data) today)
                       (c_team_member_involved data)
                       (Some (get_or (c_comment data) "")) now now ].
Proof.
  intros db data mmyy today now request_id db' H. unfold create in H.
  destruct (generate_custom_id db _ mmyy) as [c|e] eqn:Hgen; cbn [bind] in H;
    [|discriminate H].
  rewrite calculate_working_days_returns in H. cbn [bind get_or] in H.
  destruct (custom_id_taken db c) eqn:Htaken; [discriminate H|].
  injection H as <- <-. exists c. repeat split. exact Htaken.
Qed.



Lemma custom_ids_app : forall db1 db2, custom_ids (db1 ++ db2) = custom_ids db1 ++ custom_ids db2.
Proof. intros db1 db2. unfold custom_ids. apply flat_map_app. Qed.

Lemma In_custom_ids : forall db c,
  In c (custom_ids db) <-> exists r, In r db /\ custom_id r = Some c.
Proof.
  intros db c. unfold custom_ids. rewrite in_flat_map. split.
  - intros [r [Hr Hc]]. exists r. split; [exact Hr|].
    destruct (custom_id r) as [c'|]; [|destruct Hc].
    destruct Hc as [->|[]]. reflexivity.
  - intros [r [Hr Hc]]. exists r. split; [exact Hr|]. rewrite Hc. left. reflexivity.
Qed.

Lemma NoDup_snoc {A : Type} : forall (l : list A) x,
  NoDup l -> ~ In x l -> NoDup (l ++ [x]).
Proof.
  intros l x Hl Hx. induction Hl as [|y l Hy Hl IH]; cbn [app].
  - constructor; [intros []|constructor].
  - constructor.
    + rewrite in_app_iff. intros [H|[H|[]]]; [contradiction|].
      subst y. apply Hx. left. reflexivity.
    + apply IH. intros H. apply Hx. right. exact H.
Qed.

(** X17. [Request.create] keeps the keys of the table unique: when no two
    rows share a rowid and no two rows share a custom id, the same holds
    after a successful create. *)
Theorem create_keeps_keys_unique :
  forall (db : store) (data : create_data) (mmyy : string) (today : date)
         (now : timestamp) (request_id : Z) (db' : store),
    NoDup (map id db) ->
    NoDup (custom_ids db) ->
    create db data mmyy today now = Return (request_id, db') ->
    NoDup (map id db') /\ NoDup (custom_ids db').
Proof.
  intros db data mmyy today now request_id db' Hids Hcids H.
  destruct (create_returns _ _ _ _ _ _ _ H) as [c [Hgen [Htaken [Hid Hdb]]]].
  rewrite Hdb. split.
  - rewrite map_app. cbn [map id]. apply NoDup_snoc; [exact Hids|].
    intros Hin. apply in_map_iff in Hin as [r [Hr Hin]].
    pose proof (next_rowid_fresh db r Hin). lia.
  - rewrite custom_ids_app. cbn. apply NoDup_snoc; [exact Hcids|].
    intros Hin. apply In_custom_ids in Hin.
    apply custom_id_taken_spec in Hin. congruence.
Qed.

(** The sample table, whose rowids and custom ids are pairwise distinct. *)
Lemma create_keeps_keys_unique_witness :
  NoDup (map id (snd sample_created)) /\ NoDup (custom_ids (snd sample_created)).
Proof.
  apply (create_keeps_keys_unique sample_store
           (fst (fst (sample_create "Internet Service"))) "0224" (_ymd2ord 2025 3 3) 0
           (fst sample_created) (snd sample_created)).
  - cbn. repeat (constructor; [cbn; intuition lia|]). constructor.
  - cbn. repeat (constructor; [cbn; intuition discriminate|]). constructor.
  - vm_compute. reflexivity.
Defined.

(* ----------------------------------------------------------------- *)
(** ** The identifiers [generate_custom_id] returns *)


(* ----------------------------------------------------------------- *)
(** ** The activity log *)

Lemma In_firstn {A : Type} : forall n (l : list A) x, In x (firstn n l) -> In x l.
Proof.
  induction n as [|n IH]; intros [|y l] x Hin; cbn [firstn] in Hin; try destruct Hin.
  - left. assumption.
  - right. apply IH. assumption.
Qed.

Lemma StronglySorted_firstn {A : Type} (R : A -> A -> Prop) : forall n l,
  StronglySorted R l -> StronglySorted R (firstn n l).
Proof.
  intros n l Hs. revert n. induction Hs as [|x l Hs IH Hx]; intros [|n]; cbn [firstn];
    try constructor.
  - apply IH.
  - rewrite Forall_forall in Hx |- *. intros y Hy. apply Hx.
    apply (In_firstn n l). exact Hy.
Qed.

Lemma In_firstn_or_full {A : Type} : forall n (l : list A) x,
  In x l -> In x (firstn n l) \/ length (firstn n l) = n.
Proof.
  intros n l x Hin. destruct (Nat.le_gt_cases (length l) n) as [Hle|Hgt].
  - left. rewrite firstn_all2 by exact Hle. exact Hin.
  - right. apply firstn_length_le. lia.
Qed.

Lemma period_activities_spec : forall logs db first last limit,
  activity_list logs db first last limit (period_activities logs db first last limit).
Proof.
  intros logs db first last limit. unfold period_activities.
  set (joined := flat_map _ logs).
  set (sel := fun row : request_log * string => _ && _).
  set (le := fun a b : request_log * string => _ <=? _).
  assert (Hjoined : forall rl name,
            In (rl, name) joined
            <-> In rl logs
                /\ exists r, In r db /\ id r = log_request_id rl /\ customer_name r = name).
  { intros rl name. unfold joined. rewrite in_flat_map. split.
    - intros [rl' [Hrl Hin]]. apply in_map_iff in Hin as [r [Heq Hr]].
      injection Heq as -> <-. apply filter_In in Hr as [Hr Hid].
      apply Z.eqb_eq in Hid. split; [exact Hrl|]. exists r. auto.
    - intros [Hrl [r [Hr [Hid Hname]]]]. exists rl. split; [exact Hrl|].
      apply in_map_iff. exists r. split; [rewrite Hname; reflexivity|].
      apply filter_In. split; [exact Hr|]. apply Z.eqb_eq. auto. }
  assert (Hsel : forall row, In row (sort_by le (filter sel joined))
                             <-> In row joined
                                 /\ first <= DATE (log_timestamp (fst row)) <= last).
  { intros row. rewrite sort_by_In, filter_In. unfold sel.
    rewrite andb_true_iff, !Z.leb_le. reflexivity. }
  constructor.
  - intros rl name Hin. apply In_firstn in Hin. apply Hsel in Hin as [Hj Hd].
    apply Hjoined in Hj as [Hrl Hr]. auto.
  - apply firstn_le_length.
  - apply StronglySorted_firstn.
    eapply StronglySorted_weaken; [| apply (sort_by_sorted le)].
    + intros x y H. unfold activity_newest_first. apply Z.leb_le, H.
    + intros x y. unfold le. rewrite !Z.leb_le. lia.
    + intros x y z. unfold le. rewrite !Z.leb_le. lia.
  - intros rl r Hrl Hr Hid Hd. apply In_firstn_or_full. apply Hsel.
    split; [|exact Hd]. apply Hjoined. split; [exact Hrl|]. exists r. auto.
Qed.

(** X19. The activity lists of the three reports: the daily one holds at
    most 50 rows of the given day, the weekly one at most 100 rows of the
    week's Monday to Sunday, the monthly one at most 200 rows of the month.
    Each row is a stored log joined to the customer name of the stored
    request it refers to, the rows are ordered newest first, and a log of the
    period whose request exists is missing only when the list is full. *)
Theorem report_activities_spec :
  forall (logs : log_store) (db : store) (target_date : date) (year week month : Z),
    1 <= month <= 12 ->
    (exists acts, daily_activities logs db target_date = Return acts
                  /\ activity_list logs db target_date target_date 50 acts)
    /\ (exists acts, weekly_activities logs db year week = Return acts
                     /\ activity_list logs db (week_start year week) (week_end year week)
                          100 acts)
    /\ (exists acts, monthly_activities logs db year month = Return acts
                     /\ activity_list logs db (_ymd2ord year month 1)
                          (_ymd2ord year month (_days_in_month year month)) 200 acts).
Proof.
  intros logs db target_date year week month Hm. split; [|split].
  - eexists. split; [reflexivity|]. apply period_activities_spec.
  - eexists. split; [reflexivity|]. apply period_activities_spec.
  - unfold monthly_activities, monthrange_last_day.
    replace ((1 <=? month) && (month <=? 12)) with true
      by (symmetry; apply andb_true_iff; rewrite !Z.leb_le; lia).
    eexists. split; [reflexivity|]. apply period_activities_spec.
Qed.

(** The sample logs and table: 2024-02-14, week 7 of 2024, February 2024. *)
Lemma report_activities_spec_witness :
  (exists acts, daily_activities sample_logs sample_store (_ymd2ord 2024 2 14) = Return acts
                /\ activity_list sample_logs sample_store (_ymd2ord 2024 2 14)
                     (_ymd2ord 2024 2 14) 50 acts)
  /\ (exists acts, weekly_activities sample_logs sample_store 2024 7 = Return acts
                   /\ activity_list sample_logs sample_store (week_start 2024 7)
                        (week_end 2024 7) 100 acts)
  /\ (exists acts, monthly_activities sample_logs sample_store 2024 2 = Return acts
                   /\ activity_list sample_logs sample_store (_ymd2ord 2024 2 1)
                        (_ymd2ord 2024 2 (_days_in_month 2024 2)) 200 acts).
Proof.
  apply (report_activities_spec sample_logs sample_store (_ymd2ord 2024 2 14) 2024 7 2).
  lia.
Defined.

Lemma activities_of_period : forall logs db acts,
  activities_of logs db acts ->
  exists first last limit, acts = period_activities logs db first last limit.
Proof.
  intros logs db acts [[d H]|[[y [w H]]|[y [m H]]]].
  - unfold daily_activities in H. injection H as <-. eauto.
  - unfold weekly_activities in H. injection H as <-. eauto.
  - unfold monthly_activities in H.
    destruct (monthrange_last_day y m) as [last_day|e]; cbn [bind] in H; [|discriminate H].
    injection H as <-. eauto.
Qed.

Lemma get_logs_for_request_In : forall logs request_id rl,
  In rl (sort_by (fun a b => log_timestamp b <=? log_timestamp a)
           (filter (fun l => log_request_id l =? request_id) logs))
  <-> In rl logs /\ log_request_id rl = request_id.
Proof.
  intros logs request_id rl. rewrite sort_by_In, filter_In, Z.eqb_eq. reflexivity.
Qed.

(** X20. Deleting a request leaves its logs behind: [get_logs_for_request]
    still returns every log of the deleted id, but no activity list of a
    daily, weekly or monthly report taken afterwards shows a log of that
    id. *)
Theorem delete_orphans_logs :
  forall (logs : log_store) (db db' : store) (request_id : Z) (success : bool)
         (acts : list (request_log * string)),
    delete db request_id = Return (success, db') ->
    activities_of logs db' acts ->
    (forall row, In row acts -> log_request_id (fst row) <> request_id)
    /\ exists kept,
         get_logs_for_request logs request_id = Return kept
         /\ forall rl, In rl kept <-> In rl logs /\ log_request_id rl = request_id.
Proof.
  intros logs db db' request_id success acts Hdel Hacts.
  unfold delete in Hdel. injection Hdel as _ <-.
  destruct (activities_of_period _ _ _ Hacts) as [first [last [limit ->]]].
  split.
  - intros [rl name] Hin. cbn [fst].
    apply (al_members _ _ _ _ _ _ (period_activities_spec _ _ _ _ _)) in Hin.
    destruct Hin as [_ [_ [r [Hr [Hid _]]]]].
    apply filter_In in Hr as [_ Hr]. apply negb_true_iff, Z.eqb_neq in Hr. lia.
  - eexists. split; [reflexivity|]. intros rl. apply get_logs_for_request_In.
Qed.

(** Request 2 of the sample table deleted, then the monthly report of
    February 2024. *)
Lemma delete_orphans_logs_witness :
  (forall row,
      In row (period_activities sample_logs
                (filter (fun r => negb (id r =? 2)) sample_store)
                (_ymd2ord 2024 2 1) (_ymd2ord 2024 2 29) 200) ->
      log_request_id (fst row) <> 2)
  /\ exists kept,
       get_logs_for_request sample_logs 2 = Return kept
       /\ forall rl, In rl kept <-> In rl sample_logs /\ log_request_id rl = 2.
Proof.
  apply (delete_orphans_logs sample_logs sample_store
           (filter (fun r => negb (id r =? 2)) sample_store) 2 true).
  - reflexivity.
  - right. right. exists 2024, 2. reflexivity.
Defined.

Lemma next_log_id_fresh : forall (logs : log_store) l, In l logs -> log_id l < next_log_id logs.
Proof.
  intros logs l. unfold next_log_id. induction logs as [|x logs IH]; intros Hin;
    [destruct Hin|].
  cbn [fold_right]. destruct Hin as [->|Hin]; [lia|].
  specialize (IH Hin). lia.
Qed.

(** X21. [create_log] appends one row with a fresh id and the current time
    that carries the values given.  [get_logs_for_request] of that request
    then returns it together with exactly the logs the request had, all of
    them logs of that request and ordered newest first, and the logs of every
    other request read as before. *)
Theorem create_log_then_get_logs :
  forall (logs : log_store) (request_id user_id : Z) (user_name action : string)
         (field_name old_value new_value : option string) (now : timestamp),
    exists (entry : request_log) (logs' : log_store) (got : list request_log),
      create_log logs request_id user_id user_name action field_name old_value new_value now
      = Return logs'
      /\ logs' = logs ++ [entry]
      /\ entry = mkLog (log_id entry) request_id user_id user_name action field_name
                   old_value new_value now
      /\ (forall l, In l logs -> log_id l <> log_id entry)
      /\ get_logs_for_request logs' request_id = Return got
      /\ (forall l, In l got <-> l = entry \/ (In l logs /\ log_request_id l = request_id))
      /\ StronglySorted log_newest_first got
      /\ (forall other, other <> request_id ->
            get_logs_for_request logs' other = get_logs_for_request logs other).
Proof.
  intros logs request_id user_id user_name action field_name old_value new_value now.
  unfold create_log. do 3 eexists. split; [reflexivity|]. split; [reflexivity|].
  split; [reflexivity|]. cbn [log_id]. split; [|split; [reflexivity|split; [|split]]].
  - intros l Hl. pose proof (next_log_id_fresh logs l Hl). lia.
  - intros l. rewrite get_logs_for_request_In, in_app_iff. cbn [In]. split.
    + intros [[Hl|[<-|[]]] Hid]; [right; auto|left; reflexivity].
    + intros [->|[Hl Hid]]; [split; [right; left; reflexivity|reflexivity]|auto].
  - eapply StronglySorted_weaken;
      [| apply (sort_by_sorted (fun a b => log_timestamp b <=? log_timestamp a))].
    + intros x y H. unfold log_newest_first. apply Z.leb_le, H.
    + intros x y. cbv beta. rewrite !Z.leb_le. lia.
    + intros x y z. cbv beta. rewrite !Z.leb_le. lia.
  - intros other Hne. unfold get_logs_for_request. rewrite filter_app. cbn [filter log_request_id].
    replace (request_id =? other) with false by (symmetry; apply Z.eqb_neq; lia).
    rewrite app_nil_r. reflexivity.
Qed.

(* ----------------------------------------------------------------- *)
(** ** Users and signing in *)

Lemma user_next_rowid_fresh : forall (users : User.user_store) u,
  In u users -> User.id u < User.next_rowid users.
Proof.
  intros users u. unfold User.next_rowid. induction users as [|x users IH]; intros Hin;
    [destruct Hin|].
  cbn [fold_right]. destruct Hin as [->|Hin]; [lia|].
  specialize (IH Hin). lia.
Qed.

Lemma get_by_username_None : forall users name,
  User.get_by_username users name = None
  <-> existsb (fun u => String.eqb (User.username u) name) users = false.
Proof.
  intros users name. unfold User.get_by_username, fetchone.
  induction users as [|u users IH]; cbn [filter existsb hd_error]; [tauto|].
  destruct (String.eqb (User.username u) name); cbn [hd_error orb];
    [split; discriminate|exact IH].
Qed.

Lemma get_by_username_app : forall users u name,
  User.get_by_username (users ++ [u]) name
  = match User.get_by_username users name with
    | Some v => Some v
    | None => if String.eqb (User.username u) name then Some u else None
    end.
Proof.
  intros users u name. unfold User.get_by_username, fetchone.
  rewrite filter_app. cbn [filter].
  destruct (filter (fun v => String.eqb (User.username v) name) users) as [|v l];
    cbn [app hd_error]; [|reflexivity].
  destruct (String.eqb (User.username u) name); reflexivity.
Qed.

(** X22. After a successful [User.create] the name was free before and now
    reads back, by name and by the returned id, as the one new row.  Signing
    in with that name succeeds with the password given and fails with any
    password of another digest; signing in under any other name goes as
    before; and a second create with the same name raises [IntegrityError]. *)
Theorem user_create_then_login :
  forall (sha256_hexdigest : string -> string) (users users' : User.user_store)
         (username password full_name : string) (email department : option string)
         (role : string) (now : timestamp) (user_id : Z),
    User.create sha256_hexdigest users username password full_name email department role now
    = Return (user_id, users') ->
    exists u : User.user,
      users' = users ++ [u]
      /\ u = User.mkUser user_id username (sha256_hexdigest password) full_name email
               department role now
      /\ User.get_by_username users username = None
      /\ User.get_by_username users' username = Some u
      /\ User.get_by_id users' user_id = Some u
      /\ login sha256_hexdigest users' username password = Some u
      /\ (forall p, sha256_hexdigest p <> sha256_hexdigest password ->
            login sha256_hexdigest users' username p = None)
      /\ (forall name p, name <> username ->
            login sha256_hexdigest users' name p = login sha256_hexdigest users name p)
      /\ (forall p f e d r t,
            User.create sha256_hexdigest users' username p f e d r t
            = Raise "IntegrityError").
Proof.
  intros sha users users' username password full_name email department role now user_id H.
  unfold User.create in H.
  destruct (existsb (fun u => String.eqb (User.username u) username) users) eqn:Hex;
    [discriminate H|].
  injection H as <- <-. eexists. split; [reflexivity|]. split; [reflexivity|].
  apply get_by_username_None in Hex.
  assert (Hnew : User.get_by_username
                   (users ++ [User.mkUser (User.next_rowid users) username
                                (User.simple_hash sha password) full_name email department
                                role now]) username
                 = Some (User.mkUser (User.next_rowid users) username
                           (User.simple_hash sha password) full_name email department
                           role now)).
  { rewrite get_by_username_app, Hex. cbn [User.username]. rewrite String.eqb_refl.
    reflexivity. }
  split; [exact Hex|]. split; [exact Hnew|]. split; [|split; [|split; [|split]]].
  - unfold User.get_by_id, fetchone. rewrite filter_app.
    replace (filter (fun u => User.id u =? User.next_rowid users) users)
      with (@nil User.user).
    + cbn [filter app User.id]. rewrite Z.eqb_refl. reflexivity.
    + symmetry. apply filter_nil_iff. intros u Hu. apply Z.eqb_neq.
      pose proof (user_next_rowid_fresh users u Hu). lia.
  - unfold login. rewrite Hnew. unfold User.verify_password. cbn [User.password_hash].
    unfold User.simple_hash. rewrite String.eqb_refl. reflexivity.
  - intros p Hp. unfold login. rewrite Hnew. unfold User.verify_password.
    cbn [User.password_hash]. unfold User.simple_hash.
    destruct (String.eqb_spec (sha password) (sha p)) as [Heq|_]; [|reflexivity].
    destruct Hp. symmetry. exact Heq.
  - intros name p Hne. unfold login. rewrite get_by_username_app. cbn [User.username].
    destruct (User.get_by_username users name); [reflexivity|].
    destruct (String.eqb_spec username name) as [Heq|_]; [|reflexivity].
    destruct Hne. symmetry. exact Heq.
  - intros p f e d r t. unfold User.create.
    replace (existsb _ (users ++ _)) with true; [reflexivity|].
    symmetry. rewrite existsb_app. cbn [existsb User.username].
    rewrite String.eqb_refl. apply orb_true_iff. right. reflexivity.
Qed.

(** A third user added to the sample users. *)
Lemma user_create_then_login_witness :
  exists u : User.user,
    sample_users ++ [User.mkUser 3 "grace" "hopper" "Grace" None (Some "IT") "user" 20]
    = sample_users ++ [u]
    /\ u = User.mkUser 3 "grace" ((fun s => s) "hopper") "Grace" None (Some "IT") "user" 20
    /\ User.get_by_username sample_users "grace" = None
    /\ User.get_by_username
         (sample_users ++ [User.mkUser 3 "grace" "hopper" "Grace" None (Some "IT") "user" 20])
         "grace" = Some u
    /\ User.get_by_id
         (sample_users ++ [User.mkUser 3 "grace" "hopper" "Grace" None (Some "IT") "user" 20])
         3 = Some u
    /\ login (fun s => s)
         (sample_users ++ [User.mkUser 3 "grace" "hopper" "Grace" None (Some "IT") "user" 20])
         "grace" "hopper" = Some u
    /\ (forall p, (fun s : string => s) p <> (fun s : string => s) "hopper" ->
          login (fun s => s)
            (sample_users
             ++ [User.mkUser 3 "grace" "hopper" "Grace" None (Some "IT") "user" 20])
            "grace" p = None)
    /\ (forall name p, name <> "grace" ->
          login (fun s => s)
            (sample_users
             ++ [User.mkUser 3 "grace" "hopper" "Grace" None (Some "IT") "user" 20])
            name p
          = login (fun s => s) sample_users name p)
    /\ (forall p f e d r t,
          User.create (fun s => s)
            (sample_users
             ++ [User.mkUser 3 "grace" "hopper" "Grace" None (Some "IT") "user" 20])
            "grace" p f e d r t
          = Raise "IntegrityError").
Proof.
  apply (user_create_then_login (fun s => s) sample_users _ "grace" "hopper" "Grace" None
           (Some "IT") "user" 20 3).
  reflexivity.
Defined.

Lemma user_create_returns :
  forall (sha256_hexdigest : string -> string) (users users' : User.user_store)
         (username password full_name : string) (email department : option string)
         (role : string) (now : timestamp) (user_id : Z),
    User.create sha256_hexdigest users username password full_name email department role now
    = Return (user_id, users') ->
    exists u : User.user,
      users' = users ++ [u]
      /\ u = User.mkUser user_id username (sha256_hexdigest password) full_name email
               department role now
      /\ User.get_by_username users' username = Some u
      /\ login sha256_hexdigest users' username password = Some u.
Proof.
  intros sha users users' username password full_name email department role now user_id H.
  unfold User.create in H.
  destruct (existsb (fun u => String.eqb (User.username u) username) users) eqn:Hex;
    [discriminate H|].
  injection H as <- <-. eexists. split; [reflexivity|]. split; [reflexivity|].
  apply get_by_username_None in Hex.
  assert (Hnew : User.get_by_username
                   (users ++ [User.mkUser (User.next_rowid users) username
                                (User.simple_hash sha password) full_name email department
                                role now]) username
                 = Some (User.mkUser (User.next_rowid users) username
                           (User.simple_hash sha password) full_name email department
                           role now)).
  { rewrite get_by_username_app, Hex. cbn [User.username]. rewrite String.eqb_refl.
    reflexivity. }
  split; [exact Hnew|].
  unfold login. rewrite Hnew. unfold User.verify_password. cbn [User.password_hash].
  unfold User.simple_hash. rewrite String.eqb_refl. reflexivity.
Qed.

(** X23. [init_database] returns for every users table.  Afterwards a user
    named admin exists.  A table that had one is left as it was, with that
    user's password digest untouched; otherwise exactly one row is added, the
    administrator with role admin, who can sign in with the password
    admin123.  Running it again changes nothing. *)
Theorem init_database_spec :
  forall (sha256_hexdigest : string -> string) (users : User.user_store)
         (now later : timestamp),
    exists users' : User.user_store,
      init_database sha256_hexdigest users now = Return users'
      /\ (exists admin, User.get_by_username users' "admin" = Some admin)
      /\ (forall admin, User.get_by_username users "admin" = Some admin ->
            users' = users /\ User.get_by_username users' "admin" = Some admin)
      /\ (User.get_by_username users "admin" = None ->
            exists admin,
              users' = users ++ [admin]
              /\ User.role admin = "admin"
              /\ User.full_name admin = "Administrator"
              /\ login sha256_hexdigest users' "admin" "admin123" = Some admin)
      /\ init_database sha256_hexdigest users' later = Return users'.
Proof.
  intros sha users now later. unfold init_database at 1.
  destruct (User.get_by_username users "admin") as [admin|] eqn:Hget.
  - exists users. split; [reflexivity|]. split; [eauto|]. split; [|split].
    + intros admin' H. injection H as <-. auto.
    + discriminate.
    + unfold init_database. rewrite Hget. reflexivity.
  - destruct (User.create sha users "admin" "admin123" "Administrator"
                (Some "admin@company.com") (Some "IT") "admin" now) as [[uid users']|e]
      eqn:Hcreate.
    + destruct (user_create_returns sha users users' "admin" "admin123"
                  "Administrator" (Some "admin@company.com") (Some "IT") "admin" now uid
                  Hcreate) as [u [Hu [Hdef [Hnew Hlogin]]]].
      cbn [bind snd]. exists users'. split; [reflexivity|]. split; [eauto|].
      split; [discriminate|]. split.
      * intros _. exists u. split; [exact Hu|].
        split; [rewrite Hdef; reflexivity|]. split; [rewrite Hdef; reflexivity|].
        exact Hlogin.
      * unfold init_database. rewrite Hnew. reflexivity.
    + exfalso. unfold User.create in Hcreate.
      apply get_by_username_None in Hget. rewrite Hget in Hcreate. discriminate Hcreate.
Qed.

(* ----------------------------------------------------------------- *)
(** ** The colour table and the service slugs *)

(** X24. For every status, [get_status_color] returns under each of the
    three formats 'hex', 'rgb' and 'reportlab', and the three values are the
    same colour: the integer triple is the hex text read as three bytes, and
    the reportlab colour is that triple over 255.  Under any other format it
    raises [KeyError], even for a known status, because the default entry is
    indexed first. *)
Theorem get_status_color_formats :
  forall status : string,
    (exists (t : Z * Z * Z) (c : rl_color),
        get_status_color status "hex" = Return (Hex ("#" ++ status_hex status))
        /\ get_status_color status "rgb" = Return (Rgb t)
        /\ get_status_color status "reportlab" = Return (Reportlab c)
        /\ hex_rgb (status_hex status) = Some t
        /\ same_colour c (status_hex status))
    /\ (forall format_type,
          ~ In format_type ["hex"; "rgb"; "reportlab"] ->
          get_status_color status format_type = Raise "KeyError").
Proof.
  intros status. split.
  - destruct (get_status_color_reportlab status) as [Hrl Hsame].
    exists (ce_rgb (dict_get colors_map status default_color)),
           (ce_reportlab (dict_get colors_map status default_color)).
    split; [apply get_status_color_hex|]. split; [reflexivity|].
    split; [exact Hrl|]. split; [|exact Hsame].
    unfold status_hex, colors_map. cbn [dict_get].
    by_status status; reflexivity.
  - intros format_type Hnot. unfold get_status_color, entry_get.
    destruct (String.eqb_spec format_type "hex") as [->|_];
      [exfalso; apply Hnot; cbn; tauto|].
    destruct (String.eqb_spec format_type "rgb") as [->|_];
      [exfalso; apply Hnot; cbn; tauto|].
    destruct (String.eqb_spec format_type "reportlab") as [->|_];
      [exfalso; apply Hnot; cbn; tauto|].
    reflexivity.
Qed.

Lemma SERVICE_TYPES_slugs : SERVICE_TYPES = map fst service_slugs.
Proof. reflexivity. Qed.

Lemma get_service_slug_offered : forall s,
  In s SERVICE_TYPES ->
  In (get_service_slug s) (map snd service_slugs)
  /\ String.length (get_service_slug s) = 2%nat
  /\ get_service_slug s <> "OT".
Proof.
  intros s Hin. unfold SERVICE_TYPES in Hin. cbn [In] in Hin.
  repeat (destruct Hin as [<-|Hin];
          [vm_compute; split; [tauto|split; [reflexivity|discriminate]]|]).
  contradiction.
Qed.

Lemma get_service_slug_offered_inj : forall s1 s2,
  In s1 SERVICE_TYPES -> In s2 SERVICE_TYPES ->
  get_service_slug s1 = get_service_slug s2 -> s1 = s2.
Proof.
  intros s1 s2 H1 H2. unfold SERVICE_TYPES in H1, H2. cbn [In] in H1, H2.
  repeat (destruct H1 as [<-|H1]; [|try contradiction]);
    repeat (destruct H2 as [<-|H2]; [|try contradiction]);
    intros H; first [reflexivity | vm_compute in H; discriminate H].
Qed.

(** X25. Every service type the application offers has a two-letter slug
    of its own in [get_service_slug], none of them the fallback OT.  So in
    any month two different offered service types have different id
    prefixes. *)
Theorem service_buckets_distinct :
  forall (s1 s2 mmyy : string),
    In s1 SERVICE_TYPES -> In s2 SERVICE_TYPES -> s1 <> s2 ->
    get_service_slug s1 <> get_service_slug s2
    /\ get_service_slug s1 <> "OT"
    /\ id_prefix s1 mmyy <> id_prefix s2 mmyy.
Proof.
  intros s1 s2 mmyy H1 H2 Hne.
  assert (Hslug : get_service_slug s1 <> get_service_slug s2).
  { intros H. apply Hne. apply get_service_slug_offered_inj; assumption. }
  split; [exact Hslug|]. split; [apply get_service_slug_offered, H1|].
  unfold id_prefix. intros H.
  apply string_app_inv_head in H. apply string_app_inv_head in H.
  apply (string_app_inv_head "_") in H.
  destruct (get_service_slug_offered s1 H1) as [_ [Hl1 _]].
  destruct (get_service_slug_offered s2 H2) as [_ [Hl2 _]].
  destruct (get_service_slug s1) as [|a1 [|b1 [|c1 t1]]]; try discriminate Hl1.
  destruct (get_service_slug s2) as [|a2 [|b2 [|c2 t2]]]; try discriminate Hl2.
  cbn in H. injection H as -> ->. apply Hslug. reflexivity.
Qed.

(** Collocation and Cross Connection in March 2025. *)
Lemma service_buckets_distinct_witness :
  get_service_slug "Collocation" <> get_service_slug "Cross Connection"
  /\ get_service_slug "Collocation" <> "OT"
  /\ id_prefix "Collocation" "0325" <> id_prefix "Cross Connection" "0325".
Proof.
  apply (service_buckets_distinct "Collocation" "Cross Connection" "0325").
  - cbn. tauto.
  - cbn. tauto.
  - discriminate.
Defined.

(* ----------------------------------------------------------------- *)
(** ** The week of the weekly report when none is asked for *)

Lemma week_start_monday : forall year week, weekday (week_start year week) = 0.
Proof.
  intros year week. unfold week_start, weekday.
  pose proof (Z.div_mod (_ymd2ord year 1 1 + 6) 7 ltac:(lia)) as Hd.
  replace (_ymd2ord year 1 1 + 7 * (week - 1) - (_ymd2ord year 1 1 + 6) mod 7 + 6)
    with (0 + ((_ymd2ord year 1 1 + 6) / 7 + (week - 1)) * 7) by lia.
  apply Z.mod_add. lia.
Qed.

Lemma _ymd2ord_jan_1 : forall year, _ymd2ord year 1 1 = _days_before_year year + 1.
Proof.
  intros year. unfold _ymd2ord, _days_before_month.
  change (nth (Z.to_nat 1) _DAYS_BEFORE_MONTH 0) with 0.
  change (2 <? 1) with false. cbn [andb]. lia.
Qed.

Lemma jan_1_next : forall year,
  _ymd2ord (year + 1) 1 1 = _ymd2ord year 1 1 + 365
  \/ _ymd2ord (year + 1) 1 1 = _ymd2ord year 1 1 + 366.
Proof.
  intros year. rewrite !_ymd2ord_jan_1, _days_before_year_succ.
  destruct (_is_leap year); lia.
Qed.

(** ISO week 1 starts on the Monday nearest to 1 January. *)
Lemma _isoweek1monday_spec : forall year,
  weekday (_isoweek1monday year) = 0
  /\ _ymd2ord year 1 1 - 3 <= _isoweek1monday year <= _ymd2ord year 1 1 + 3
  /\ _isoweek1monday year
     = _ymd2ord year 1 1 - weekday (_ymd2ord year 1 1)
       + (if 3 <? weekday (_ymd2ord year 1 1) then 7 else 0).
Proof.
  intros year. unfold _isoweek1monday, weekday. cbv zeta.
  set (jan_1 := _ymd2ord year 1 1).
  pose proof (Z.mod_pos_bound (jan_1 + 6) 7 ltac:(lia)) as Hb.
  pose proof (Z.div_mod (jan_1 + 6) 7 ltac:(lia)) as Hd.
  destruct (3 <? (jan_1 + 6) mod 7) eqn:Hlate;
    [apply Z.ltb_lt in Hlate | apply Z.ltb_ge in Hlate].
  - split; [|lia].
    replace (jan_1 - (jan_1 + 6) mod 7 + 7 + 6) with (0 + ((jan_1 + 6) / 7 + 1) * 7) by lia.
    apply Z.mod_add. lia.
  - split; [|lia].
    replace (jan_1 - (jan_1 + 6) mod 7 + 6) with (0 + ((jan_1 + 6) / 7) * 7) by lia.
    apply Z.mod_add. lia.
Qed.

Lemma monday_multiple : forall a b, weekday a = 0 -> weekday b = 0 -> exists k, b - a = 7 * k.
Proof.
  intros a b Ha Hb. unfold weekday in *.
  pose proof (Z.div_mod (a + 6) 7 ltac:(lia)). pose proof (Z.div_mod (b + 6) 7 ltac:(lia)).
  exists ((b + 6) / 7 - (a + 6) / 7). lia.
Qed.

(** X26. Called without a week, the weekly report view asks for the ISO
    week number of today in today's calendar year, while
    [get_weekly_report] numbers the weeks from the one that holds 1 January.
    The period reported is a Monday-to-Sunday week, and for a day whose ISO
    year is its calendar year it is today's week when the year starts on a
    Monday to Thursday but the week before today's when the year starts on a
    Friday, Saturday or Sunday.  For a day of early January that belongs to
    the last ISO week of the previous year the period lies more than 350
    days ahead, and for a day of late December that belongs to ISO week 1
    of the next year more than 350 days back. *)
Theorem default_weekly_report_week :
  forall (db : store) (y m d : Z),
    _ymd2ord y 1 1 <= _ymd2ord y m d < _ymd2ord (y + 1) 1 1 ->
    exists first : date,
      default_weekly_report db y m d = Return (period_report db first (first + 6))
      /\ weekday first = 0
      /\ (_isoweek1monday y <= _ymd2ord y m d < _isoweek1monday (y + 1) ->
            (weekday (_ymd2ord y 1 1) <= 3 -> first <= _ymd2ord y m d <= first + 6)
            /\ (3 < weekday (_ymd2ord y 1 1) ->
                  first + 7 <= _ymd2ord y m d <= first + 13))
      /\ (_ymd2ord y m d < _isoweek1monday y -> _ymd2ord y m d + 350 < first)
      /\ (_isoweek1monday (y + 1) <= _ymd2ord y m d -> first + 350 < _ymd2ord y m d).
Proof.
  intros db y m d Hyear.
  exists (week_start y (snd (fst (isocalendar y m d)))).
  split; [reflexivity|]. split; [apply week_start_monday|].
  pose proof (eq_refl : _ymd2ord y 1 1 + 7 * (snd (fst (isocalendar y m d)) - 1)
                        - weekday (_ymd2ord y 1 1)
                        = week_start y (snd (fst (isocalendar y m d)))) as Hfirst.
  set (first := week_start y (snd (fst (isocalendar y m d)))) in *.
  destruct (_isoweek1monday_spec y) as [Hm0 [Hr0 He0]].
  destruct (_isoweek1monday_spec (y + 1)) as [Hm1 [Hr1 _]].
  destruct (_isoweek1monday_spec (y - 1)) as [Hmp [Hrp _]].
  pose proof (jan_1_next y) as Hnext.
  pose proof (jan_1_next (y - 1)) as Hprev.
  replace (y - 1 + 1) with y in Hprev by lia.
  destruct (monday_multiple _ _ Hm0 Hm1) as [k1 Hk1].
  destruct (monday_multiple _ _ Hmp Hm0) as [kp Hkp].
  pose proof (Z.mod_pos_bound (_ymd2ord y 1 1 + 6) 7 ltac:(lia)) as Hwd.
  fold (weekday (_ymd2ord y 1 1)) in Hwd.
  set (today := _ymd2ord y m d) in *.
  set (jan_1 := _ymd2ord y 1 1) in *.
  set (w0 := _isoweek1monday y) in *.
  set (w1 := _isoweek1monday (y + 1)) in *.
  set (wp := _isoweek1monday (y - 1)) in *.
  assert (Hweek : snd (fst (isocalendar y m d))
                  = if (today - w0) / 7 <? 0 then (today - wp) / 7 + 1
                    else if 52 <=? (today - w0) / 7
                         then if w1 <=? today then 1 else (today - w0) / 7 + 1
                         else (today - w0) / 7 + 1).
  { unfold isocalendar. cbv zeta. fold today w0 w1 wp.
    destruct ((today - w0) / 7 <? 0); [reflexivity|].
    destruct (52 <=? (today - w0) / 7); [|reflexivity].
    destruct (w1 <=? today); reflexivity. }
  rewrite Hweek in Hfirst. clear Hweek Hm0 Hm1 Hmp.
  pose proof (Z.div_mod (today - w0) 7 ltac:(lia)) as Hd0.
  pose proof (Z.mod_pos_bound (today - w0) 7 ltac:(lia)) as Hb0.
  pose proof (Z.div_mod (today - wp) 7 ltac:(lia)) as Hdp.
  pose proof (Z.mod_pos_bound (today - wp) 7 ltac:(lia)) as Hbp.
  set (q0 := (today - w0) / 7) in *. set (qp := (today - wp) / 7) in *.
  clearbody q0 qp today jan_1 w0 w1 wp first.
  revert He0 Hfirst.
  destruct (3 <? weekday jan_1) eqn:Hlate;
    [apply Z.ltb_lt in Hlate | apply Z.ltb_ge in Hlate];
    destruct (q0 <? 0) eqn:Hneg; [apply Z.ltb_lt in Hneg | apply Z.ltb_ge in Hneg
                                 |apply Z.ltb_lt in Hneg | apply Z.ltb_ge in Hneg];
    destruct (52 <=? q0) eqn:Hbig; [apply Z.leb_le in Hbig | apply Z.leb_gt in Hbig
                                   |apply Z.leb_le in Hbig | apply Z.leb_gt in Hbig
                                   |apply Z.leb_le in Hbig | apply Z.leb_gt in Hbig
                                   |apply Z.leb_le in Hbig | apply Z.leb_gt in Hbig];
    destruct (w1 <=? today) eqn:Hroll;
    rewrite ?Z.leb_le, ?Z.leb_gt in Hroll;
    repeat split; intros; lia.
Qed.

(** Tuesday 2021-01-05, in a year that starts on a Friday. *)
Lemma default_weekly_report_week_witness :
  exists first : date,
    default_weekly_report sample_store 2021 1 5
    = Return (period_report sample_store first (first + 6))
    /\ weekday first = 0
    /\ (_isoweek1monday 2021 <= _ymd2ord 2021 1 5 < _isoweek1monday (2021 + 1) ->
          (weekday (_ymd2ord 2021 1 1) <= 3 -> first <= _ymd2ord 2021 1 5 <= first + 6)
          /\ (3 < weekday (_ymd2ord 2021 1 1) ->
                first + 7 <= _ymd2ord 2021 1 5 <= first + 13))
    /\ (_ymd2ord 2021 1 5 < _isoweek1monday 2021 -> _ymd2ord 2021 1 5 + 350 < first)
    /\ (_isoweek1monday (2021 + 1) <= _ymd2ord 2021 1 5 -> first + 350 < _ymd2ord 2021 1 5).
Proof.
  apply (default_weekly_report_week sample_store 2021 1 5).
  vm_compute. split; [discriminate|reflexivity].
Defined.

(* ----------------------------------------------------------------- *)
(** ** Writing and reading the sequence number of an identifier *)
















